(** * cortex.parsers: registry, transforms and service loop

    A shallow embedding of [cortex/parsers/parsers.py].

    - Decoded JSON values are the inductive type [json]; Python dicts are
      insertion-ordered association lists ([dict]).
    - A byte/character string is kept up to JSON decoding: it is the
      serialisation of a value ([Json]), a text that is not JSON ([Raw])
      or bytes that are not text ([Binary]).
    - Python code runs in the monad [M]: explicit state passing over the
      external world plus a trace of observable events, with Python
      exceptions as the second kind of outcome.
    - Everything outside the module (files, PIL, matplotlib, pika, the
      clock) is reached through [invoke], whose answers come from a
      [Platform]: each external call may return or raise. *)

From Stdlib Require Import ZArith List String Ascii Bool Lia.
From Stdlib Require Import SpecFloat DecimalString.
Import ListNotations.
Local Open Scope string_scope.
Local Open Scope list_scope.
Local Open Scope Z_scope.

Set Implicit Arguments.
Set Warnings "-register-all".

(* ================================================================== *)
(** ** Python values *)

(** A Python [dict] with [str] keys: association list in insertion order. *)
Abbreviation dict V := (list (string * V)).

(** What [json.loads] produces.  Floats are IEEE 754 values. *)
Inductive json : Type :=
| JNull
| JBool (b : bool)
| JInt (z : Z)
| JFloat (f : spec_float)
| JStr (s : string)
| JArr (l : list json)
| JObj (d : dict json).

(** A [bytes]/[str] object holding a message body or a file's content:
    [Json v] is a serialisation of [v] (what [json.dumps v] returns);
    [Raw s] is a text that is not a JSON document, on which [json.loads]
    raises [JSONDecodeError]; [Binary b] is a [bytes] object that is not
    the encoding of a text (invalid UTF-8, say), on which [json.loads]
    raises [UnicodeDecodeError] before it parses anything. *)
Inductive bytes : Type :=
| Raw (s : string)
| Binary (b : string)
| Json (v : json).

(** The exception classes the module raises or catches.  [OSError]
    stands for the class and its subclasses ([IOError] is an alias of
    it); [AMQPError] for [pika.exceptions.AMQPError] and its subclasses,
    which include every class named in [run_parser_service];
    [JSONDecodeError] and [UnicodeDecodeError] are subclasses of
    [ValueError]. *)
Inductive exn : Type :=
| KeyError (key : string)
| TypeError (msg : string)
| ValueError (msg : string)
| JSONDecodeError (msg : string)
| UnicodeDecodeError (msg : string)
| OSError (msg : string)
| AMQPError (msg : string)
| NameError (name : string)
| SystemExit (code : Z).

Inductive outcome (A : Type) : Type :=
| Return (a : A)
| Raise (e : exn).
Arguments Return {A} a.
Arguments Raise {A} e.

(** Objects of the libraries, known only by identity. *)
Inductive image : Type := Image (id : nat).
Inductive connection : Type := Connection (id : nat).
Inductive channel : Type := Channel (id : nat).

(* ================================================================== *)
(** ** dict operations *)

Section Dict.
Variable V : Type.

(** [d.get(k)] *)
Fixpoint dict_get (k : string) (d : dict V) : option V :=
  match d with
  | [] => None
  | (k', v) :: d' => if String.eqb k k' then Some v else dict_get k d'
  end.

(** [k in d] *)
Definition dict_mem (k : string) (d : dict V) : bool :=
  match dict_get k d with Some _ => true | None => false end.

(** [d[k] = v]: an existing key keeps its position and takes the new
    value, a new key goes to the end. *)
Fixpoint dict_set (k : string) (v : V) (d : dict V) : dict V :=
  match d with
  | [] => [(k, v)]
  | (k', v') :: d' =>
      if String.eqb k k' then (k', v) :: d' else (k', v') :: dict_set k v d'
  end.

(** [list(d)] *)
Definition dict_keys (d : dict V) : list string := map fst d.
End Dict.

(* ================================================================== *)
(** ** Strings: [str()] and [str.format] *)

Definition str_int (z : Z) : string := NilZero.string_of_int (Z.to_int z).

(** ["...{}...".format(args)] for templates whose only fields are [{}];
    every call in the module passes as many arguments as its template has
    fields (with fewer, the remaining fields are left as they are). *)
Fixpoint format (template : string) (args : list string) : string :=
  match template with
  | EmptyString => EmptyString
  | String c rest =>
      match c, rest, args with
      | "{"%char, String "}"%char rest', a :: args' => (a ++ format rest' args')%string
      | _, _, _ => String c (format rest args)
      end
  end.

(** A Python [str] is a sequence of code points, held here as its UTF-8
    bytes: a byte [10xxxxxx] continues the code point of the byte before. *)
Definition is_continuation (c : ascii) : bool :=
  (Nat.leb 128 (nat_of_ascii c) && Nat.ltb (nat_of_ascii c) 192)%bool.

(** The code points of a text, each as its bytes. *)
Fixpoint code_points (text : list ascii) : list (list ascii) :=
  match text with
  | [] => []
  | b :: rest =>
      match code_points rest with
      | (c :: tail) :: groups =>
          if is_continuation c
          then (b :: c :: tail) :: groups
          else [b] :: (c :: tail) :: groups
      | groups => [b] :: groups
      end
  end.

(** [str(e)] of an exception: the repr of the key for [KeyError], the
    message otherwise. *)
Definition str_exn (e : exn) : string :=
  match e with
  | KeyError k => ("'" ++ k ++ "'")%string
  | TypeError m | ValueError m | JSONDecodeError m | UnicodeDecodeError m
  | OSError m | AMQPError m => m
  | NameError n => ("name '" ++ n ++ "' is not defined")%string
  | SystemExit c => str_int c
  end.

(* ================================================================== *)
(** ** The world outside the module *)

(** The calls the module makes into the standard library, PIL,
    matplotlib and pika, indexed by the type of what they return. *)
Inductive call : Type -> Type :=
(* builtins, os, pathlib, datetime, logging set-up *)
| open_read (path : json) (mode : string) : call bytes
    (* with open(path, mode) as f: f.read() *)
| Path_mkdir (path : string) : call unit
    (* pathlib.Path(path).mkdir(parents=True, exist_ok=True) *)
| os_path_exists (path : string) : call bool
| os_makedirs (path : string) : call unit
| now_strftime (fmt : string) : call string
| logging_basicConfig (filename : string) : call unit
| pika_setLevel_WARNING : call unit
(* PIL *)
| Image_frombytes (mode : string) (width height : json) (data : bytes) : call image
| Image_save (img : image) (path : string) : call unit
(* matplotlib.pyplot *)
| plt_imshow (X : list json) (cmap interpolation : string) : call unit
| plt_savefig (path : string) : call unit
(* pika *)
| BlockingConnection (host : json) : call connection
| connection_channel (c : connection) : call channel
| exchange_declare (ch : channel) (exchange exchange_type : string) : call unit
| queue_declare (ch : channel) (queue : string) (exclusive : bool) : call unit
| queue_bind (ch : channel) (exchange queue routing_key : string) : call unit
| basic_consume (ch : channel) (queue : string) (auto_ack : bool) : call unit
| consuming_ends (ch : channel) : call unit
    (* how the blocking start_consuming() ends once no delivery is left *)
| basic_publish (ch : channel) (exchange routing_key : string) (body : bytes) : call unit.

(** What the process does that can be observed from outside. *)
Inductive event : Type :=
| Logged (level : string) (msg : string)
| Printed (line : string)
| Called (X : Type) (c : call X).
Arguments Called {X} c.

(** The environment of a run.  [perform] answers each external call,
    from the current world, with a value or an exception and the next
    world.  [repr_json] is [str()] of the decoded values that are not
    [str], [int], [bool] or [None].  [loads_message s] is the message of
    the exception [json.loads] raises on the text or bytes [s] it rejects.  [PROCESSED_DIRECTORY] is the module
    constant of that name, computed from [__file__]; [LOGS_DIRECTORY] is
    the [dir_path] that [init_logger] computes from the working directory
    and [__file__].  [sys_imported] tells whether the module's star
    import of [cortex_pb2] binds the name [sys], which the module uses
    and never imports itself. *)
Class Platform : Type := {
  World : Type;
  perform : forall X : Type, call X -> World -> outcome X * World;
  repr_json : json -> string;
  loads_message : string -> string;
  PROCESSED_DIRECTORY : string;
  LOGS_DIRECTORY : string;
  sys_imported : bool
}.

Definition EXCHANGE_NAME : string := "snapshot".
Definition EXCHANGE_PUBLISH : string := "processed_data".

(* ================================================================== *)
(** ** The monad of Python code *)

Section Runtime.
Context {P : Platform}.

Record State : Type := mkState { world : World; trace : list event }.

Definition M (A : Type) : Type := State -> outcome A * State.

Definition ret {A} (a : A) : M A := fun s => (Return a, s).

Definition raise {A} (e : exn) : M A := fun s => (Raise e, s).

Definition bind {A B} (m : M A) (f : A -> M B) : M B :=
  fun s =>
    match m s with
    | (Return a, s') => f a s'
    | (Raise e, s') => (Raise e, s')
    end.

(** [try: body  except ...:] where [handlers e] is the body of the
    first clause matching [e], if any. *)
Definition try_except {A} (body : M A) (handlers : exn -> option (M A)) : M A :=
  fun s =>
    match body s with
    | (Return a, s') => (Return a, s')
    | (Raise e, s') =>
        match handlers e with
        | Some h => h s'
        | None => (Raise e, s')
        end
    end.

Definition emit (ev : event) : M unit :=
  fun s => (Return tt, mkState (world s) (trace s ++ [ev])).

Definition invoke {X} (c : call X) : M X :=
  fun s =>
    let (r, w) := perform c (world s) in
    (r, mkState w (trace s ++ [Called c])).

End Runtime.

Declare Scope py_scope.
Delimit Scope py_scope with py.
Notation "x <- m ;; k" := (bind m (fun x => k))
  (at level 61, m at next level, right associativity) : py_scope.
Notation "m ;; k" := (bind m (fun _ => k))
  (at level 61, right associativity) : py_scope.

(* ================================================================== *)
(** ** Builtins used by the module *)

Section Builtins.
Context {P : Platform}.
Local Open Scope py_scope.

(** [str(v)] for a decoded value. *)
Definition str_json (v : json) : string :=
  match v with
  | JStr s => s
  | JInt z => str_int z
  | JBool true => "True"
  | JBool false => "False"
  | JNull => "None"
  | _ => repr_json v
  end.

(** [json.loads(data)] *)
Definition json_loads (data : bytes) : M json :=
  match data with
  | Raw s => raise (JSONDecodeError (loads_message s))
  | Binary b => raise (UnicodeDecodeError (loads_message b))
  | Json v => ret v
  end.

(** [json.dumps(v)] *)
Definition json_dumps (v : json) : bytes := Json v.

(** [obj[key]] for a [str] key: only a dict can be subscripted by it. *)
Definition getitem (obj : json) (key : string) : M json :=
  match obj with
  | JObj d =>
      match dict_get key d with
      | Some v => ret v
      | None => raise (KeyError key)
      end
  | _ => raise (TypeError "indices must be integers")
  end.

(** The values Python accepts as an integer index: [int], and [bool]
    as its subclass. *)
Definition as_index (v : json) : option Z :=
  match v with
  | JInt z => Some z
  | JBool b => Some (if b then 1 else 0)
  | _ => None
  end.

(** [l[lo:hi]] on a sequence: a negative bound counts from the end,
    and both bounds are clipped to the sequence. *)
Definition slice_list {A} (l : list A) (lo hi : Z) : list A :=
  let n := Z.of_nat (List.length l) in
  let clip x := if x <? 0 then Z.max (x + n) 0 else Z.min x n in
  firstn (Z.to_nat (clip hi - clip lo)) (skipn (Z.to_nat (clip lo)) l).

(** [obj[lo:hi]]: lists and strings can be sliced, a string by code
    points. *)
Definition py_slice (obj : json) (lo hi : Z) : M json :=
  match obj with
  | JArr l => ret (JArr (slice_list l lo hi))
  | JStr s =>
      ret (JStr (string_of_list_ascii
                   (List.concat (slice_list (code_points (list_ascii_of_string s))
                                       lo hi))))
  | _ => raise (TypeError "object is not subscriptable")
  end.

(** [range(n)] *)
Definition py_range (n : json) : M (list Z) :=
  match as_index n with
  | Some h => ret (map Z.of_nat (seq 0 (Z.to_nat h)))
  | None => raise (TypeError "object cannot be interpreted as an integer")
  end.

Definition logging_debug (msg : string) : M unit := emit (Logged "DEBUG" msg).
Definition logging_error (msg : string) : M unit := emit (Logged "ERROR" msg).
Definition print (line : string) : M unit := emit (Printed line).

(** [sys.exit(code)]: raises [SystemExit] when [sys] is bound. *)
Definition sys_exit {A} (code : Z) : M A :=
  if sys_imported then raise (SystemExit code) else raise (NameError "sys").

(** [except Exception] catches everything but [SystemExit]. *)
Definition is_Exception (e : exn) : bool :=
  match e with SystemExit _ => false | _ => true end.

(** The status the interpreter exits with when a run of the main
    program ends in [r]. *)
Definition exit_status {A} (r : outcome A) : Z :=
  match r with
  | Return _ => 0
  | Raise (SystemExit code) => code
  | Raise _ => 1
  end.

End Builtins.

(* ================================================================== *)
(** ** The transforms *)

Section Transforms.
Context {P : Platform}.
Local Open Scope py_scope.

(** The [logging.debug] line every transform starts with, after
    decoding: it reads both fields outside any [try]. *)
Definition log_received (snapshot_json : json) : M unit :=
  user_id <- getitem snapshot_json "user_id" ;;
  datetime <- getitem snapshot_json "datetime" ;;
  logging_debug (format "Received Snapshot from user {}, Snapshot {}"
                        [str_json user_id; str_json datetime]).

(** The body of an [except KeyError as e] clause: the message is
    formatted from [snapshot_json["datetime"]], [snapshot_json["user_id"]]
    and [e], logged, and the transform returns [None]. *)
Definition log_missing (template : string) (snapshot_json : json) (e : exn)
  : M (option bytes) :=
  datetime <- getitem snapshot_json "datetime" ;;
  user_id <- getitem snapshot_json "user_id" ;;
  logging_error (format template [str_json datetime; str_json user_id; str_exn e]) ;;
  ret None.

Definition pose_try (snapshot_json : json) : M (option bytes) :=
  user_id <- getitem snapshot_json "user_id" ;;
  datetime <- getitem snapshot_json "datetime" ;;
  rotation_x <- getitem snapshot_json "pose_rotation_x" ;;
  rotation_y <- getitem snapshot_json "pose_rotation_y" ;;
  rotation_z <- getitem snapshot_json "pose_rotation_z" ;;
  rotation_w <- getitem snapshot_json "pose_rotation_w" ;;
  translation_x <- getitem snapshot_json "pose_translation_x" ;;
  translation_y <- getitem snapshot_json "pose_translation_y" ;;
  translation_z <- getitem snapshot_json "pose_translation_z" ;;
  let result :=
    [ ("user_id", user_id);
      ("datetime", datetime);
      ("rotation_x", rotation_x);
      ("rotation_y", rotation_y);
      ("rotation_z", rotation_z);
      ("rotation_w", rotation_w);
      ("translation_x", translation_x);
      ("translation_y", translation_y);
      ("translation_z", translation_z) ] in
  ret (Some (json_dumps (JObj result))).

Definition pose (data : bytes) : M (option bytes) :=
  snapshot_json <- json_loads data ;;
  log_received snapshot_json ;;
  try_except (pose_try snapshot_json)
    (fun e =>
       match e with
       | KeyError _ =>
           Some (log_missing
                   "Snapshot {} from user {} did not contain necessary pose data: {}"
                   snapshot_json e)
       | _ => None
       end).

Definition color_image_try (snapshot_json : json) : M (option bytes) :=
  path <- getitem snapshot_json "color_image_path" ;;
  image_bytes <- invoke (open_read path "rb") ;;
  invoke (Path_mkdir PROCESSED_DIRECTORY) ;;
  user_id <- getitem snapshot_json "user_id" ;;
  datetime <- getitem snapshot_json "datetime" ;;
  let final_path :=
    format "{}/{}_{}_color.jpg"
           [PROCESSED_DIRECTORY; str_json user_id; str_json datetime] in
  width <- getitem snapshot_json "color_image_width" ;;
  height <- getitem snapshot_json "color_image_height" ;;
  img <- invoke (Image_frombytes "RGB" width height image_bytes) ;;
  invoke (Image_save img final_path) ;;
  user_id <- getitem snapshot_json "user_id" ;;
  datetime <- getitem snapshot_json "datetime" ;;
  height <- getitem snapshot_json "color_image_height" ;;
  width <- getitem snapshot_json "color_image_width" ;;
  let result :=
    [ ("user_id", user_id);
      ("datetime", datetime);
      ("color_image_path", JStr final_path);
      ("height", height);
      ("width", width) ] in
  ret (Some (json_dumps (JObj result))).

Definition color_image (data : bytes) : M (option bytes) :=
  snapshot_json <- json_loads data ;;
  log_received snapshot_json ;;
  try_except (color_image_try snapshot_json)
    (fun e =>
       match e with
       | KeyError _ =>
           Some (log_missing
                   "Error: Snapshot {} from user {} did not contain necessary color image data: {}"
                   snapshot_json e)
       | OSError _ =>
           Some (logging_error (format "Error: file error: {}" [str_exn e]) ;;
                 ret None)
       | _ => None
       end).

(** [image_array[(i*width):(i*width)+(width-1)]] *)
Definition depth_row (image_array width : json) (i : Z) : M json :=
  match as_index width with
  | Some w => py_slice image_array (i * w) (i * w + (w - 1))
  | None => raise (TypeError "slice indices must be integers")
  end.

(** [for i in items: new_array.append(row(i))] *)
Fixpoint for_append (items : list Z) (row : Z -> M json) (new_array : list json)
  : M (list json) :=
  match items with
  | [] => ret new_array
  | i :: rest =>
      r <- row i ;;
      for_append rest row (new_array ++ [r])
  end.

Definition depth_image_try (snapshot_json : json) : M (option bytes) :=
  path <- getitem snapshot_json "depth_image_path" ;;
  serialized <- invoke (open_read path "r") ;;
  data_json <- json_loads serialized ;;
  image_array <- getitem data_json "data" ;;
  user_id <- getitem snapshot_json "user_id" ;;
  datetime <- getitem snapshot_json "datetime" ;;
  let final_path :=
    format "{}/{}_{}_depth.jpg"
           [PROCESSED_DIRECTORY; str_json user_id; str_json datetime] in
  width <- getitem snapshot_json "depth_image_width" ;;
  height <- getitem snapshot_json "depth_image_height" ;;
  rows <- py_range height ;;
  new_array <- for_append rows (depth_row image_array width) [] ;;
  invoke (Path_mkdir PROCESSED_DIRECTORY) ;;
  invoke (plt_imshow new_array "hot" "nearest") ;;
  invoke (plt_savefig final_path) ;;
  user_id <- getitem snapshot_json "user_id" ;;
  datetime <- getitem snapshot_json "datetime" ;;
  height <- getitem snapshot_json "depth_image_height" ;;
  width <- getitem snapshot_json "depth_image_width" ;;
  let result :=
    [ ("user_id", user_id);
      ("datetime", datetime);
      ("height", height);
      ("width", width);
      ("depth_image_path", JStr final_path) ] in
  ret (Some (json_dumps (JObj result))).

(** The [OSError] clause ends in the expression statement [None]: the
    function then falls off its end, which returns [None]. *)
Definition depth_image (data : bytes) : M (option bytes) :=
  snapshot_json <- json_loads data ;;
  log_received snapshot_json ;;
  try_except (depth_image_try snapshot_json)
    (fun e =>
       match e with
       | KeyError _ =>
           Some (log_missing
                   "Snapshot {} from user {} did not have necessary depth image data: {}"
                   snapshot_json e)
       | OSError _ =>
           Some (datetime <- getitem snapshot_json "datetime" ;;
                 user_id <- getitem snapshot_json "user_id" ;;
                 logging_error
                   (format "Error: file error for snapshot {} by user {}: {}"
                           [str_json datetime; str_json user_id; str_exn e]) ;;
                 ret None)
       | _ => None
       end).

Definition feelings_try (snapshot_json : json) : M (option bytes) :=
  user_id <- getitem snapshot_json "user_id" ;;
  datetime <- getitem snapshot_json "datetime" ;;
  happiness <- getitem snapshot_json "happiness" ;;
  thirst <- getitem snapshot_json "thirst" ;;
  hunger <- getitem snapshot_json "hunger" ;;
  exhaustion <- getitem snapshot_json "exhaustion" ;;
  let result :=
    [ ("user_id", user_id);
      ("datetime", datetime);
      ("happiness", happiness);
      ("thirst", thirst);
      ("hunger", hunger);
      ("exhaustion", exhaustion) ] in
  ret (Some (json_dumps (JObj result))).

Definition feelings (data : bytes) : M (option bytes) :=
  snapshot_json <- json_loads data ;;
  log_received snapshot_json ;;
  try_except (feelings_try snapshot_json)
    (fun e =>
       match e with
       | KeyError _ =>
           Some (log_missing
                   "Snapshot {} by user {} did not contain all necessary feelings data: {}"
                   snapshot_json e)
       | _ => None
       end).

End Transforms.

(* ================================================================== *)
(** ** Registry, dispatch and service loop *)

Section Module.
Context {P : Platform}.
Local Open Scope py_scope.

(** A function object: its name and what calling it does. *)
Record function : Type := def {
  __name__ : string;
  __call__ : bytes -> M (option bytes)
}.

(** The decorator [parser(func)], on the dict bound to the global
    [PARSERS]: the updated dict and the decorator's return value. *)
Definition parser (func : function) (parsers_dict : dict function)
  : dict function * function :=
  (dict_set (__name__ func) func parsers_dict, func).

(** [PARSERS] once the module is imported: [{}] updated by the four
    decorated definitions, in source order. *)
Definition PARSERS : dict function :=
  let PARSERS := [] in
  let PARSERS := fst (parser (def "pose" pose) PARSERS) in
  let PARSERS := fst (parser (def "color_image" color_image) PARSERS) in
  let PARSERS := fst (parser (def "depth_image" depth_image) PARSERS) in
  let PARSERS := fst (parser (def "feelings" feelings) PARSERS) in
  PARSERS.

Definition exit_run {A} : M A :=
  print "Error encountered. please see log for details." ;;
  sys_exit 1.

Definition init_logger (parser_name : string) : M unit :=
  time_string <- invoke (now_strftime "%d.%m.%Y-%H:%M:%S") ;;
  let dir_path := LOGS_DIRECTORY in
  present <- invoke (os_path_exists dir_path) ;;
  (if negb present then invoke (os_makedirs dir_path) else ret tt) ;;
  invoke (logging_basicConfig
            (format "{}/{}_{}.log" [dir_path; parser_name; time_string])) ;;
  invoke pika_setLevel_WARNING.

(** The functions below read the global through [globals()["PARSERS"]]. *)
Section Globals.
Variable globals_PARSERS : dict function.

Definition run_parser (parser_name : string) (data : bytes) : M (option bytes) :=
  let parsers := globals_PARSERS in
  match dict_get parser_name parsers with
  | Some f => __call__ f data
  | None => raise (KeyError parser_name)
  end.

Fixpoint error_list_loop (names : list string) (count : Z) : M unit :=
  match names with
  | [] => ret tt
  | parser_type :: rest =>
      print (format "{}. {}" [str_int (count + 1); parser_type]) ;;
      error_list_loop rest (count + 1)
  end.

Definition error_list_parsers : M unit :=
  print "Error: Unknown parser. Available parsers:" ;;
  error_list_loop (dict_keys globals_PARSERS) 0.

(** The closure [parser_callback] of [run_parser_service]. *)
Definition parser_callback (parser_name : string) (connection : connection)
           (body : bytes) : M unit :=
  result <- run_parser parser_name body ;;
  match result with
  | None => ret tt
  | Some result =>
      result_dict <- json_loads result ;;
      publish_channel <- invoke (connection_channel connection) ;;
      invoke (exchange_declare publish_channel EXCHANGE_PUBLISH "topic") ;;
      let routing_key := parser_name in
      user_id <- getitem result_dict "user_id" ;;
      datetime <- getitem result_dict "datetime" ;;
      logging_debug
        (format "Publishing Back to MQ Data processed by {}, user {}, Snapshot {}"
                [parser_name; str_json user_id; str_json datetime]) ;;
      invoke (basic_publish publish_channel EXCHANGE_PUBLISH routing_key result)
  end.

(** [channel.start_consuming()]: the callback runs on each delivery
    in turn, an exception of the callback leaves the call, and with
    no delivery left the broker decides how the call ends. *)
Fixpoint start_consuming (ch : channel) (on_message_callback : bytes -> M unit)
         (deliveries : list bytes) : M unit :=
  match deliveries with
  | [] => invoke (consuming_ends ch)
  | body :: rest =>
      on_message_callback body ;;
      start_consuming ch on_message_callback rest
  end.

(** The statements of [run_parser_service] before [start_consuming]:
    connect, declare and bind the queue, register the callback. *)
Definition service_bind (parser_name : string) (message_queue : json)
  : M (connection * channel) :=
  print (str_json message_queue) ;;
  connection <- invoke (BlockingConnection message_queue) ;;
  channel <- invoke (connection_channel connection) ;;
  invoke (exchange_declare channel EXCHANGE_NAME "direct") ;;
  invoke (queue_declare channel parser_name true) ;;
  invoke (queue_bind channel EXCHANGE_NAME parser_name EXCHANGE_NAME) ;;
  invoke (basic_consume channel parser_name true) ;;
  print (format "{}: Starting to consume" [parser_name]) ;;
  ret (connection, channel).

(** [deliveries] are the bodies the broker hands to the consumer
    during the run.  The [except] clause names pika's classes only. *)
Definition run_parser_service (parser_name : string) (message_queue : json)
           (deliveries : list bytes) : M unit :=
  try_except
    (bound <- service_bind parser_name message_queue ;;
     let (connection, channel) := bound in
     start_consuming channel (parser_callback parser_name connection) deliveries)
    (fun e =>
       match e with
       | AMQPError _ =>
           Some (logging_error (format "Error in run_parser_service: {}" [str_exn e]) ;;
                 exit_run)
       | _ => None
       end).

Definition run_parser_wrapper (parser_name : string) (data mq : json)
           (action : string) (deliveries : list bytes) : M (option bytes) :=
  (if negb (dict_mem parser_name globals_PARSERS)
   then error_list_parsers ;; sys_exit 1
   else ret tt) ;;
  init_logger parser_name ;;
  if String.eqb action "once" then
    data_ <- try_except (invoke (open_read data "rb"))
               (fun e =>
                  if is_Exception e
                  then Some (logging_error
                               (format "Raw data file error: {}" [str_exn e]) ;;
                             exit_run)
                  else None) ;;
    run_parser parser_name data_
  else if String.eqb action "service" then
    run_parser_service parser_name mq deliveries ;;
    ret None
  else ret None.

End Globals.

End Module.

(* ================================================================== *)
(** ** A platform to run the module on

    An in-memory file system: reading a path that holds no file raises
    [OSError], and so does writing when the file system is read-only.
    [json.loads] reports a text it rejects with the message
    [Expecting value].
    The broker accepts every call and closes the connection when no
    delivery is left. *)

Module InMemory.

Record fs : Type := mkfs { files : dict bytes; read_only : bool }.

(** The bytes [ff fe], which are not UTF-8. *)
Definition not_utf8 : string := String "255" (String "254" EmptyString).

Definition write (path : string) (w : fs) : outcome unit * fs :=
  if read_only w
  then (Raise (OSError "Read-only file system"), w)
  else (Return tt, mkfs (dict_set path (Raw "JFIF") (files w)) false).

Definition run (X : Type) (c : call X) (w : fs) : outcome X * fs :=
  match c in call X return outcome X * fs with
  | open_read (JStr path) _ =>
      match dict_get path (files w) with
      | Some content => (Return content, w)
      | None => (Raise (OSError "No such file or directory"), w)
      end
  | open_read _ _ => (Raise (TypeError "expected str"), w)
  | Path_mkdir _ => (Return tt, w)
  | os_path_exists _ => (Return true, w)
  | os_makedirs _ => (Return tt, w)
  | now_strftime _ => (Return "04.12.2019-10:08:07", w)
  | logging_basicConfig _ => (Return tt, w)
  | pika_setLevel_WARNING => (Return tt, w)
  | Image_frombytes _ _ _ _ => (Return (Image 0), w)
  | Image_save _ path => write path w
  | plt_imshow _ _ _ => (Return tt, w)
  | plt_savefig path => write path w
  | BlockingConnection _ => (Return (Connection 0), w)
  | connection_channel _ => (Return (Channel 0), w)
  | exchange_declare _ _ _ => (Return tt, w)
  | queue_declare _ _ _ => (Return tt, w)
  | queue_bind _ _ _ _ => (Return tt, w)
  | basic_consume _ _ _ => (Return tt, w)
  | consuming_ends _ => (Raise (AMQPError "connection closed"), w)
  | basic_publish _ _ _ _ => (Return tt, w)
  end.

Definition platform : Platform :=
  {| World := fs;
     perform := run;
     repr_json := fun _ => "<repr>";
     loads_message :=
       fun s => if String.eqb s not_utf8
                then "'utf-8' codec can't decode byte 0xff in position 0"
                else "Expecting value";
     PROCESSED_DIRECTORY := "/cortex/files/processed";
     LOGS_DIRECTORY := "/cortex/parsers/Logs";
     sys_imported := true |}.

Definition start (w : fs) : @State platform := @mkState platform w [].

(** Sample inputs. *)
Definition pose_snapshot : dict json :=
  [ ("user_id", JInt 42);
    ("datetime", JStr "2019-12-04_10-08-07");
    ("pose_rotation_x", JInt 1);
    ("pose_rotation_y", JInt 2);
    ("pose_rotation_z", JInt 3);
    ("pose_rotation_w", JInt 4);
    ("pose_translation_x", JInt 5);
    ("pose_translation_y", JInt 6);
    ("pose_translation_z", JInt 7) ].

Definition feelings_snapshot : dict json :=
  [ ("user_id", JInt 42);
    ("datetime", JStr "2019-12-04_10-08-07");
    ("happiness", JInt 1);
    ("thirst", JInt 2);
    ("hunger", JInt 3);
    ("exhaustion", JInt 4) ].

Definition color_snapshot : dict json :=
  [ ("user_id", JInt 42);
    ("datetime", JStr "2019-12-04_10-08-07");
    ("color_image_path", JStr "/raw/color.bin");
    ("color_image_width", JInt 2);
    ("color_image_height", JInt 2) ].

Definition depth_snapshot : dict json :=
  [ ("user_id", JInt 42);
    ("datetime", JStr "2019-12-04_10-08-07");
    ("depth_image_path", JStr "/raw/depth.json");
    ("depth_image_width", JInt 3);
    ("depth_image_height", JInt 2) ].

Definition depth_file (values : list json) : bytes :=
  Json (JObj [("data", JArr values)]).

Definition disk (values : list json) (ro : bool) : fs :=
  mkfs [ ("/raw/color.bin", Raw "RGBRGBRGBRGB");
         ("/raw/depth.json", depth_file values) ] ro.

Definition six : list json := [JInt 10; JInt 11; JInt 12; JInt 13; JInt 14; JInt 15].

End InMemory.

(* ================================================================== *)
(** ** Vocabulary of the statements *)

(** The values of a result record besides its correlation key. *)
Definition echoed_values (result : dict json) : list json :=
  map snd
      (filter (fun kv => negb (String.eqb (fst kv) "user_id"
                               || String.eqb (fst kv) "datetime"))
              result).

(** [result] is the serialisation of a record whose [user_id] and
    [datetime] are those of the record [snapshot_json]. *)
Definition echoes_key (snapshot_json : json) (result : bytes) : Prop :=
  exists (snapshot record : dict json) (user_id datetime : json),
    result = Json (JObj record) /\
    dict_get "user_id" record = Some user_id /\
    dict_get "datetime" record = Some datetime /\
    snapshot_json = JObj snapshot /\
    dict_get "user_id" snapshot = Some user_id /\
    dict_get "datetime" snapshot = Some datetime.

(** The lines [error_list_parsers] prints after its heading, counting
    from [count]. *)
Fixpoint numbered (count : Z) (names : list string) : list string :=
  match names with
  | [] => []
  | name :: rest =>
      (str_int (count + 1) ++ ". " ++ name)%string :: numbered (count + 1) rest
  end.

(** The grid [depth_image] builds from the array [l] for [width = w]
    and [height = h]. *)
Definition grid (l : list json) (w h : Z) : list (list json) :=
  map (fun i => slice_list l (i * w) (i * w + (w - 1)))
      (map Z.of_nat (seq 0 (Z.to_nat h))).

(** The events of a transform: log lines and calls to the file system,
    PIL and matplotlib; none goes to the broker. *)
Definition transform_event (ev : event) : Prop :=
  match ev with
  | Logged _ _ => True
  | Called (open_read _ _) | Called (Path_mkdir _)
  | Called (Image_frombytes _ _ _ _) | Called (Image_save _ _)
  | Called (plt_imshow _ _ _) | Called (plt_savefig _) => True
  | _ => False
  end.

(** Any event at all. *)
Definition any_event (ev : event) : Prop := True.

Section Vocabulary.
Context {P : Platform}.

(** Running [m] only appends to the trace, and only events in [Q]. *)
Definition appends (Q : event -> Prop) {A} (m : M A) : Prop :=
  forall s, exists evs, trace (snd (m s)) = trace s ++ evs /\ Forall Q evs.

(** The log lines of the transforms. *)
Definition received (user_id datetime : json) : event :=
  Logged "DEBUG" (format "Received Snapshot from user {}, Snapshot {}"
                         [str_json user_id; str_json datetime]).

Definition color_file_error (msg : string) : event :=
  Logged "ERROR" (format "Error: file error: {}" [msg]).

Definition depth_file_error (user_id datetime : json) (msg : string) : event :=
  Logged "ERROR" (format "Error: file error for snapshot {} by user {}: {}"
                         [str_json datetime; str_json user_id; msg]).

End Vocabulary.

(** Log lines, as opposed to prints and calls. *)
Definition is_log (ev : event) : Prop :=
  match ev with Logged _ _ => True | _ => False end.


(** The first field, in the order of [fields], that the record lacks. *)
Definition first_missing (fields : list string) (snapshot : dict json)
  : option string :=
  find (fun key => negb (dict_mem key snapshot)) fields.

(** The exceptions [color_image] and [depth_image] have a clause for. *)
Definition has_clause (e : exn) : bool :=
  match e with KeyError _ | OSError _ => true | _ => false end.

Section MoreVocabulary.
Context {P : Platform}.
Local Open Scope py_scope.

(** [m] computes its outcome without looking at the state, leaves the
    world as it is and adds log lines only, always the same ones. *)
Definition only_logs {A} (m : M A) : Prop :=
  exists (r : outcome A) (lines : list event),
    Forall is_log lines /\
    forall s, m s = (r, mkState (world s) (trace s ++ lines)).


(** The error lines of the [KeyError] clauses of the image transforms. *)
Definition color_missing_error (user_id datetime : json) (key : string) : event :=
  Logged "ERROR"
    (format "Error: Snapshot {} from user {} did not contain necessary color image data: {}"
            [str_json datetime; str_json user_id; str_exn (KeyError key)]).

Definition depth_missing_error (user_id datetime : json) (key : string) : event :=
  Logged "ERROR"
    (format "Snapshot {} from user {} did not have necessary depth image data: {}"
            [str_json datetime; str_json user_id; str_exn (KeyError key)]).

(** The paths of the derived images. *)
Definition color_path (user_id datetime : json) : string :=
  format "{}/{}_{}_color.jpg"
         [PROCESSED_DIRECTORY; str_json user_id; str_json datetime].

Definition depth_path (user_id datetime : json) : string :=
  format "{}/{}_{}_depth.jpg"
         [PROCESSED_DIRECTORY; str_json user_id; str_json datetime].

(** What [sys.exit(1)] raises. *)
Definition exit_exn : exn :=
  if sys_imported then SystemExit 1 else NameError "sys".

(** The events of [exit_run]. *)
Definition exit_notice : event :=
  Printed "Error encountered. please see log for details.".

End MoreVocabulary.

(* ================================================================== *)
(** * Properties *)

(** ** Running code: equations and inversions of the monad *)

Section Laws.
Context {P : Platform}.
Local Open Scope py_scope.

Lemma bind_Return A B (m : M A) (f : A -> M B) s a s' :
  m s = (Return a, s') -> bind m f s = f a s'.
Proof. unfold bind. intros ->. reflexivity. Qed.

Lemma bind_Raise A B (m : M A) (f : A -> M B) s e s' :
  m s = (Raise e, s') -> bind m f s = (Raise e, s').
Proof. unfold bind. intros ->. reflexivity. Qed.

Lemma bind_ext A B (m : M A) (f g : A -> M B) s :
  (forall a s1, f a s1 = g a s1) -> bind m f s = bind m g s.
Proof.
  intros H. unfold bind. destruct (m s) as [[a | e] s1]; [apply H | reflexivity].
Qed.

Lemma bind_inv A B (m : M A) (f : A -> M B) s b s' :
  bind m f s = (Return b, s') ->
  exists a s1, m s = (Return a, s1) /\ f a s1 = (Return b, s').
Proof.
  unfold bind. destruct (m s) as [[a | e] s1]; intros H.
  - exists a, s1. split; [reflexivity | exact H].
  - discriminate H.
Qed.

Lemma try_except_Return A (body : M A) handlers s a s' :
  body s = (Return a, s') -> try_except body handlers s = (Return a, s').
Proof. unfold try_except. intros ->. reflexivity. Qed.

Lemma try_except_caught A (body : M A) handlers s e s' h :
  body s = (Raise e, s') -> handlers e = Some h ->
  try_except body handlers s = h s'.
Proof. unfold try_except. intros -> ->. reflexivity. Qed.

Lemma try_except_passed A (body : M A) handlers s e s' :
  body s = (Raise e, s') -> handlers e = None ->
  try_except body handlers s = (Raise e, s').
Proof. unfold try_except. intros -> ->. reflexivity. Qed.

Lemma try_except_ext A (body body' : M A) handlers s s' :
  body s = body' s' ->
  try_except body handlers s = try_except body' handlers s'.
Proof. unfold try_except. intros ->. reflexivity. Qed.

Lemma try_except_inv A (body : M A) handlers s a s' :
  try_except body handlers s = (Return a, s') ->
  body s = (Return a, s') \/
  exists e s1 h, body s = (Raise e, s1) /\ handlers e = Some h /\
                 h s1 = (Return a, s').
Proof.
  unfold try_except. destruct (body s) as [[a0 | e] s1]; intros H.
  - left. exact H.
  - destruct (handlers e) as [h |] eqn:Hh; [| discriminate H].
    right. exists e, s1, h. auto.
Qed.

Lemma getitem_found d key v s :
  dict_get key d = Some v -> getitem (JObj d) key s = (Return v, s).
Proof. unfold getitem. intros ->. reflexivity. Qed.

Lemma getitem_missing d key s :
  dict_get key d = None -> getitem (JObj d) key s = (Raise (KeyError key), s).
Proof. unfold getitem. intros ->. reflexivity. Qed.

Lemma getitem_inv obj key v s s' :
  getitem obj key s = (Return v, s') ->
  exists d, obj = JObj d /\ dict_get key d = Some v /\ s' = s.
Proof.
  unfold getitem, ret, raise.
  destruct obj; try discriminate.
  destruct (dict_get key d) eqn:Hk; [| discriminate].
  intros [= -> ->]. eauto.
Qed.

Lemma json_loads_inv data v s s' :
  json_loads data s = (Return v, s') -> data = Json v /\ s' = s.
Proof.
  unfold json_loads, ret, raise. destruct data; try discriminate.
  intros [= -> ->]. auto.
Qed.

(** A handler that logs a missing field rejects, if it returns. *)
Lemma log_missing_rejects template snapshot_json e s r s' :
  log_missing template snapshot_json e s = (Return r, s') -> r = None.
Proof.
  unfold log_missing. intros H.
  apply bind_inv in H as (? & ? & _ & H).
  apply bind_inv in H as (? & ? & _ & H).
  apply bind_inv in H as (? & ? & _ & H).
  unfold ret in H. congruence.
Qed.

(** With both fields of the correlation key in the record, the first
    log line is written and nothing else happens. *)
Lemma log_received_found d u dt s :
  dict_get "user_id" d = Some u -> dict_get "datetime" d = Some dt ->
  log_received (JObj d) s =
    (Return tt,
     mkState (world s)
       (trace s ++ [Logged "DEBUG"
                      (format "Received Snapshot from user {}, Snapshot {}"
                              [str_json u; str_json dt])])).
Proof.
  intros Hu Hd. unfold log_received.
  erewrite bind_Return by (apply getitem_found; eassumption).
  erewrite bind_Return by (apply getitem_found; eassumption).
  reflexivity.
Qed.

Lemma log_received_inv snapshot_json s s' :
  log_received snapshot_json s = (Return tt, s') ->
  exists d u dt, snapshot_json = JObj d /\
                 dict_get "user_id" d = Some u /\
                 dict_get "datetime" d = Some dt.
Proof.
  unfold log_received. intros H.
  apply bind_inv in H as (u & s1 & Hu & H).
  apply bind_inv in H as (dt & s2 & Hd & _).
  apply getitem_inv in Hu as (d & -> & Hu & ->).
  apply getitem_inv in Hd as (d' & [= <-] & Hd & ->).
  eauto 6.
Qed.

End Laws.

(* ================================================================== *)
(** ** pose and feelings *)

(** C2 (as amended).  On a record that carries the correlation key and
    the seven pose fields (rotation x/y/z/w, translation x/y/z), [pose]
    returns the record made of [user_id], [datetime] and those seven
    values, unchanged and under the names [rotation_*], [translation_*].
    The world is left as it was and the only event of the run is the
    debug log line: no file is written. *)
Theorem pose_passes_seven_values_through
        (P : Platform) (snapshot : dict json) (s : State)
        (user_id datetime rx ry rz rw tx ty tz : json) :
  dict_get "user_id" snapshot = Some user_id ->
  dict_get "datetime" snapshot = Some datetime ->
  dict_get "pose_rotation_x" snapshot = Some rx ->
  dict_get "pose_rotation_y" snapshot = Some ry ->
  dict_get "pose_rotation_z" snapshot = Some rz ->
  dict_get "pose_rotation_w" snapshot = Some rw ->
  dict_get "pose_translation_x" snapshot = Some tx ->
  dict_get "pose_translation_y" snapshot = Some ty ->
  dict_get "pose_translation_z" snapshot = Some tz ->
  let result :=
    [ ("user_id", user_id); ("datetime", datetime);
      ("rotation_x", rx); ("rotation_y", ry); ("rotation_z", rz);
      ("rotation_w", rw);
      ("translation_x", tx); ("translation_y", ty); ("translation_z", tz) ] in
  pose (Json (JObj snapshot)) s =
    (Return (Some (Json (JObj result))),
     mkState (world s)
       (trace s ++ [Logged "DEBUG"
                      (format "Received Snapshot from user {}, Snapshot {}"
                              [str_json user_id; str_json datetime])]))
  /\ echoed_values result = [rx; ry; rz; rw; tx; ty; tz].
Proof.
  intros Hu Hd Hrx Hry Hrz Hrw Htx Hty Htz result.
  split; [| reflexivity].
  unfold pose.
  erewrite bind_Return by reflexivity.
  erewrite bind_Return by (apply log_received_found; eassumption).
  apply try_except_Return.
  unfold pose_try.
  repeat (erewrite bind_Return by (apply getitem_found; eassumption)).
  reflexivity.
Qed.

Lemma pose_passes_seven_values_through_witness :
  @pose InMemory.platform (Json (JObj InMemory.pose_snapshot))
        (InMemory.start (InMemory.disk [] false))
  = (Return
       (Some (Json (JObj [ ("user_id", JInt 42);
                           ("datetime", JStr "2019-12-04_10-08-07");
                           ("rotation_x", JInt 1); ("rotation_y", JInt 2);
                           ("rotation_z", JInt 3); ("rotation_w", JInt 4);
                           ("translation_x", JInt 5); ("translation_y", JInt 6);
                           ("translation_z", JInt 7) ]))),
     @mkState InMemory.platform (InMemory.disk [] false)
       [Logged "DEBUG"
          "Received Snapshot from user 42, Snapshot 2019-12-04_10-08-07"]).
Proof.
  exact (proj1 (@pose_passes_seven_values_through
                  InMemory.platform InMemory.pose_snapshot
                  (InMemory.start (InMemory.disk [] false))
                  (JInt 42) (JStr "2019-12-04_10-08-07")
                  (JInt 1) (JInt 2) (JInt 3) (JInt 4) (JInt 5) (JInt 6) (JInt 7)
                  eq_refl eq_refl eq_refl eq_refl eq_refl eq_refl eq_refl
                  eq_refl eq_refl)).
Defined.

(** C2 as stated fails: on a record with exactly the fields [pose]
    requires, the result holds seven values besides the correlation key,
    not eight. *)
Lemma pose_result_has_seven_values_not_eight :
  let run := @pose InMemory.platform (Json (JObj InMemory.pose_snapshot))
                   (InMemory.start (InMemory.disk [] false)) in
  (exists result, fst run = Return (Some (Json (JObj result))) /\
                  List.length (echoed_values result) = 7%nat) /\
  ~ (exists result, fst run = Return (Some (Json (JObj result))) /\
                    List.length (echoed_values result) = 8%nat).
Proof.
  split.
  - eexists. split; reflexivity.
  - intros (result & Hrun & Hlen).
    vm_compute in Hrun. injection Hrun as <-. discriminate Hlen.
Qed.

(** C4 (as amended).  On a record that carries the correlation key and
    misses one of [happiness], [thirst], [hunger], [exhaustion],
    [feelings] returns [None]: no exception leaves it, the world is left
    as it was, and the error logged after the debug line names the
    correlation key and a missing field. *)
Theorem feelings_rejects_missing_feeling
        (P : Platform) (snapshot : dict json) (s : State)
        (user_id datetime : json) (field : string) :
  dict_get "user_id" snapshot = Some user_id ->
  dict_get "datetime" snapshot = Some datetime ->
  In field ["happiness"; "thirst"; "hunger"; "exhaustion"] ->
  dict_get field snapshot = None ->
  exists missing,
    In missing ["happiness"; "thirst"; "hunger"; "exhaustion"] /\
    dict_get missing snapshot = None /\
    feelings (Json (JObj snapshot)) s =
      (Return None,
       mkState (world s)
         (trace s ++
            [Logged "DEBUG"
               (format "Received Snapshot from user {}, Snapshot {}"
                       [str_json user_id; str_json datetime])] ++
            [Logged "ERROR"
               (format "Snapshot {} by user {} did not contain all necessary feelings data: {}"
                       [str_json datetime; str_json user_id;
                        str_exn (KeyError missing)])])).
Proof.
  intros Hu Hd Hin Hmiss.
  assert (Hrun : forall missing,
             (forall s1, feelings_try (JObj snapshot) s1
                         = (Raise (KeyError missing), s1)) ->
             feelings (Json (JObj snapshot)) s =
               (Return None,
                mkState (world s)
                  (trace s ++
                     [Logged "DEBUG"
                        (format "Received Snapshot from user {}, Snapshot {}"
                                [str_json user_id; str_json datetime])] ++
                     [Logged "ERROR"
                        (format "Snapshot {} by user {} did not contain all necessary feelings data: {}"
                                [str_json datetime; str_json user_id;
                                 str_exn (KeyError missing)])]))).
  { intros missing Htry. unfold feelings.
    erewrite bind_Return by reflexivity.
    erewrite bind_Return by (apply log_received_found; eassumption).
    erewrite try_except_caught; [| apply Htry | reflexivity].
    unfold log_missing.
    repeat (erewrite bind_Return by (apply getitem_found; eassumption)).
    unfold bind, logging_error, emit, ret. cbn [world trace].
    rewrite <- app_assoc. reflexivity. }
  assert (Hfirst : exists missing,
             In missing ["happiness"; "thirst"; "hunger"; "exhaustion"] /\
             dict_get missing snapshot = None /\
             forall s1, feelings_try (JObj snapshot) s1
                        = (Raise (KeyError missing), s1)).
  { unfold feelings_try.
    destruct (dict_get "happiness" snapshot) as [h |] eqn:Hh.
    2:{ exists "happiness". split; [simpl; auto | split; [exact Hh |]].
        intros s1.
        repeat (erewrite bind_Return by (apply getitem_found; eassumption)).
        apply bind_Raise, getitem_missing, Hh. }
    destruct (dict_get "thirst" snapshot) as [t |] eqn:Ht.
    2:{ exists "thirst". split; [simpl; auto | split; [exact Ht |]].
        intros s1.
        repeat (erewrite bind_Return by (apply getitem_found; eassumption)).
        apply bind_Raise, getitem_missing, Ht. }
    destruct (dict_get "hunger" snapshot) as [g |] eqn:Hg.
    2:{ exists "hunger". split; [simpl; auto | split; [exact Hg |]].
        intros s1.
        repeat (erewrite bind_Return by (apply getitem_found; eassumption)).
        apply bind_Raise, getitem_missing, Hg. }
    destruct (dict_get "exhaustion" snapshot) as [x |] eqn:Hx.
    2:{ exists "exhaustion". split; [simpl; auto 6 | split; [exact Hx |]].
        intros s1.
        repeat (erewrite bind_Return by (apply getitem_found; eassumption)).
        apply bind_Raise, getitem_missing, Hx. }
    exfalso. simpl in Hin.
    destruct Hin as [<- | [<- | [<- | [<- | []]]]]; congruence. }
  destruct Hfirst as (missing & Hm & Hnone & Htry).
  exists missing. split; [exact Hm | split; [exact Hnone |]].
  apply Hrun, Htry.
Qed.

Lemma feelings_rejects_missing_feeling_witness :
  let snapshot :=
    [ ("user_id", JInt 42); ("datetime", JStr "2019-12-04_10-08-07");
      ("happiness", JInt 1); ("hunger", JInt 3); ("exhaustion", JInt 4) ] in
  exists missing,
    In missing ["happiness"; "thirst"; "hunger"; "exhaustion"] /\
    dict_get missing snapshot = None /\
    @feelings InMemory.platform (Json (JObj snapshot))
              (InMemory.start (InMemory.disk [] false)) =
      (Return None,
       @mkState InMemory.platform (InMemory.disk [] false)
         ([] ++
          [Logged "DEBUG"
             (format "Received Snapshot from user {}, Snapshot {}"
                     ["42"; "2019-12-04_10-08-07"])] ++
          [Logged "ERROR"
             (format "Snapshot {} by user {} did not contain all necessary feelings data: {}"
                     ["2019-12-04_10-08-07"; "42"; str_exn (KeyError missing)])])).
Proof.
  intros snapshot.
  apply (@feelings_rejects_missing_feeling
           InMemory.platform snapshot (InMemory.start (InMemory.disk [] false))
           (JInt 42) (JStr "2019-12-04_10-08-07") "thirst").
  - reflexivity.
  - reflexivity.
  - simpl. auto.
  - reflexivity.
Defined.

(** C4 as stated fails: with [user_id] as the single missing field,
    [feelings] does not return [None]; the [KeyError] of the debug log
    line leaves the transform. *)
Lemma feelings_without_user_id_raises :
  let snapshot :=
    [ ("datetime", JStr "2019-12-04_10-08-07");
      ("happiness", JInt 1); ("thirst", JInt 2);
      ("hunger", JInt 3); ("exhaustion", JInt 4) ] in
  let run := @feelings InMemory.platform (Json (JObj snapshot))
                       (InMemory.start (InMemory.disk [] false)) in
  fst run = Raise (KeyError "user_id") /\ fst run <> Return None.
Proof.
  split; [reflexivity | discriminate].
Qed.

(* ================================================================== *)
(** ** What holds of every registered transform *)

Section Registered.
Context {P : Platform}.
Local Open Scope py_scope.

(** The registry of the imported module holds the four transforms. *)
Lemma PARSERS_inv name f :
  dict_get name PARSERS = Some f ->
  f = def "pose" pose \/ f = def "color_image" color_image \/
  f = def "depth_image" depth_image \/ f = def "feelings" feelings.
Proof.
  unfold PARSERS, parser. cbn.
  destruct (String.eqb name "pose"); [intros [= <-]; auto |].
  destruct (String.eqb name "color_image"); [intros [= <-]; auto |].
  destruct (String.eqb name "depth_image"); [intros [= <-]; auto |].
  destruct (String.eqb name "feelings"); [intros [= <-]; auto |].
  discriminate.
Qed.

Lemma PARSERS_keys :
  dict_keys PARSERS = ["pose"; "color_image"; "depth_image"; "feelings"].
Proof. reflexivity. Qed.

(** Every transform starts by decoding and by the debug log line. *)
Lemma registered_prologue name f :
  dict_get name PARSERS = Some f ->
  exists rest : json -> M (option bytes),
    forall data,
      __call__ f data =
        (snapshot_json <- json_loads data ;;
         log_received snapshot_json ;;
         rest snapshot_json).
Proof.
  intros H. apply PARSERS_inv in H as [-> | [-> | [-> | ->]]];
    eexists; intros data; cbn [__call__];
    [unfold pose | unfold color_image | unfold depth_image | unfold feelings];
    reflexivity.
Qed.

Lemma log_received_missing d s :
  dict_get "user_id" d = None \/ dict_get "datetime" d = None ->
  exists key,
    (key = "user_id" \/ key = "datetime") /\ dict_get key d = None /\
    log_received (JObj d) s = (Raise (KeyError key), s).
Proof.
  intros H. unfold log_received.
  destruct (dict_get "user_id" d) as [u |] eqn:Hu.
  - destruct H as [H | H]; [discriminate H |].
    exists "datetime". split; [auto | split; [exact H |]].
    erewrite bind_Return by (apply getitem_found; eassumption).
    apply bind_Raise, getitem_missing, H.
  - exists "user_id". split; [auto | split; [exact Hu |]].
    apply bind_Raise, getitem_missing, Hu.
Qed.

End Registered.

(** C10.  Whichever registered transform runs, on a decoded object that
    lacks [user_id] or [datetime] it raises [KeyError] for that field
    instead of returning [None]: the exception comes from the debug log
    line, before the [try], and leaves the transform with nothing logged
    and the state untouched. *)
Theorem missing_correlation_key_raises_KeyError
        (P : Platform) (name : string) (f : function)
        (snapshot : dict json) (s : State) :
  dict_get name PARSERS = Some f ->
  dict_get "user_id" snapshot = None \/ dict_get "datetime" snapshot = None ->
  exists key,
    (key = "user_id" \/ key = "datetime") /\
    dict_get key snapshot = None /\
    __call__ f (Json (JObj snapshot)) s = (Raise (KeyError key), s).
Proof.
  intros Hf Hmiss.
  destruct (@registered_prologue P name f Hf) as (rest & Hcall).
  destruct (@log_received_missing P snapshot s Hmiss)
    as (key & Hkey & Hnone & Hlog).
  exists key. split; [exact Hkey | split; [exact Hnone |]].
  rewrite Hcall.
  erewrite bind_Return by reflexivity.
  apply bind_Raise, Hlog.
Qed.

Lemma missing_correlation_key_raises_KeyError_witness :
  let snapshot :=
    [ ("user_id", JInt 42);
      ("depth_image_path", JStr "/raw/depth.json");
      ("depth_image_width", JInt 3); ("depth_image_height", JInt 2) ] in
  exists key,
    (key = "user_id" \/ key = "datetime") /\
    dict_get key snapshot = None /\
    @depth_image InMemory.platform (Json (JObj snapshot))
                 (InMemory.start (InMemory.disk InMemory.six false))
    = (Raise (KeyError key), InMemory.start (InMemory.disk InMemory.six false)).
Proof.
  intros snapshot.
  apply (@missing_correlation_key_raises_KeyError
           InMemory.platform "depth_image" (def "depth_image" depth_image)
           snapshot (InMemory.start (InMemory.disk InMemory.six false))).
  - reflexivity.
  - right. reflexivity.
Defined.

(* ================================================================== *)
(** ** The correlation key of a result *)

Section Correlation.
Context {P : Platform}.
Local Open Scope py_scope.

Lemma getitem_JObj_inv d key v s s' :
  getitem (JObj d) key s = (Return v, s') ->
  dict_get key d = Some v /\ s' = s.
Proof.
  intros H. apply getitem_inv in H as (d' & [= <-] & H & ->). auto.
Qed.

(** Splits a run that returned into the runs of its statements. *)
Ltac unbind H :=
  repeat
    (let a := fresh "a" in
     let s1 := fresh "s" in
     let H1 := fresh "Hrun" in
     apply bind_inv in H as (a & s1 & H1 & H)).

Ltac ungetitem :=
  repeat match goal with
    | H : getitem (JObj _) _ _ = (Return _, _) |- _ =>
        apply getitem_JObj_inv in H as [H ?]
    | H : getitem _ _ _ = (Return _, _) |- _ =>
        apply getitem_inv in H as (? & -> & H & ?)
    end.

Ltac echoed :=
  eexists _, _, _, _;
  split; [reflexivity |];
  split; [reflexivity |];
  split; [reflexivity |];
  split; [reflexivity |];
  split; eassumption.

Lemma pose_try_echoes snapshot_json s result s' :
  pose_try snapshot_json s = (Return (Some result), s') ->
  echoes_key snapshot_json result.
Proof.
  unfold pose_try. intros H. unbind H. ungetitem.
  unfold ret, json_dumps in H. injection H as <- _.
  echoed.
Qed.

Lemma feelings_try_echoes snapshot_json s result s' :
  feelings_try snapshot_json s = (Return (Some result), s') ->
  echoes_key snapshot_json result.
Proof.
  unfold feelings_try. intros H. unbind H. ungetitem.
  unfold ret, json_dumps in H. injection H as <- _.
  echoed.
Qed.

Lemma color_image_try_echoes snapshot_json s result s' :
  color_image_try snapshot_json s = (Return (Some result), s') ->
  echoes_key snapshot_json result.
Proof.
  unfold color_image_try. intros H. unbind H. ungetitem.
  unfold ret, json_dumps in H. injection H as <- _.
  echoed.
Qed.

Lemma depth_image_try_echoes snapshot_json s result s' :
  depth_image_try snapshot_json s = (Return (Some result), s') ->
  echoes_key snapshot_json result.
Proof.
  unfold depth_image_try. intros H. unbind H.
  repeat match goal with
    | H : getitem snapshot_json _ _ = _ |- _ =>
        apply getitem_inv in H as (? & -> & H & ?)
    | H : getitem (JObj _) "user_id" _ = _ |- _ =>
        apply getitem_JObj_inv in H as [H ?]
    | H : getitem (JObj _) "datetime" _ = _ |- _ =>
        apply getitem_JObj_inv in H as [H ?]
    end.
  unfold ret, json_dumps in H. injection H as <- _.
  echoed.
Qed.

(** The [except] clauses of the transforms return [None] when they
    return at all. *)
Ltac rejects H :=
  exfalso; unbind H; unfold ret in H; discriminate H.

Lemma registered_result_echoes name f data s result s' :
  dict_get name PARSERS = Some f ->
  __call__ f data s = (Return (Some result), s') ->
  exists snapshot_json, data = Json snapshot_json /\
                        echoes_key snapshot_json result.
Proof.
  intros Hf H.
  apply PARSERS_inv in Hf as [-> | [-> | [-> | ->]]]; cbn [__call__] in H;
    [unfold pose in H | unfold color_image in H
     | unfold depth_image in H | unfold feelings in H];
    apply bind_inv in H as (snapshot_json & s1 & Hloads & H);
    apply json_loads_inv in Hloads as [-> ->];
    apply bind_inv in H as (? & s2 & _ & H);
    exists snapshot_json; (split; [reflexivity |]);
    apply try_except_inv in H as [H | (e & s3 & h & _ & Hh & H)].
  - eapply pose_try_echoes, H.
  - destruct e; try discriminate Hh; injection Hh as <-.
    apply log_missing_rejects in H. discriminate H.
  - eapply color_image_try_echoes, H.
  - destruct e; try discriminate Hh; injection Hh as <-.
    + apply log_missing_rejects in H. discriminate H.
    + rejects H.
  - eapply depth_image_try_echoes, H.
  - destruct e; try discriminate Hh; injection Hh as <-.
    + apply log_missing_rejects in H. discriminate H.
    + rejects H.
  - eapply feelings_try_echoes, H.
  - destruct e; try discriminate Hh; injection Hh as <-.
    apply log_missing_rejects in H. discriminate H.
Qed.

End Correlation.

(** C3.  Whenever a registered transform returns a result, the result is
    the serialisation of a record whose [user_id] and [datetime] are the
    values of these fields in the record the input decodes to. *)
Theorem result_echoes_correlation_key
        (P : Platform) (name : string) (f : function)
        (data result : bytes) (s s' : State) :
  dict_get name PARSERS = Some f ->
  __call__ f data s = (Return (Some result), s') ->
  exists (snapshot record : dict json) (user_id datetime : json),
    data = Json (JObj snapshot) /\
    result = Json (JObj record) /\
    dict_get "user_id" snapshot = Some user_id /\
    dict_get "user_id" record = Some user_id /\
    dict_get "datetime" snapshot = Some datetime /\
    dict_get "datetime" record = Some datetime.
Proof.
  intros Hf H.
  destruct (@registered_result_echoes P name f data s result s' Hf H)
    as (snapshot_json & -> & snapshot & record & user_id & datetime
        & -> & Hru & Hrd & -> & Hsu & Hsd).
  exists snapshot, record, user_id, datetime. auto 7.
Qed.

Lemma result_echoes_correlation_key_witness :
  exists (snapshot record : dict json) (user_id datetime : json),
    Json (JObj InMemory.color_snapshot) = Json (JObj snapshot) /\
    Json (JObj [ ("user_id", JInt 42);
                 ("datetime", JStr "2019-12-04_10-08-07");
                 ("color_image_path",
                  JStr "/cortex/files/processed/42_2019-12-04_10-08-07_color.jpg");
                 ("height", JInt 2); ("width", JInt 2) ])
    = Json (JObj record) /\
    dict_get "user_id" snapshot = Some user_id /\
    dict_get "user_id" record = Some user_id /\
    dict_get "datetime" snapshot = Some datetime /\
    dict_get "datetime" record = Some datetime.
Proof.
  eapply (@result_echoes_correlation_key
            InMemory.platform "color_image" (def "color_image" color_image)
            (Json (JObj InMemory.color_snapshot)) _
            (InMemory.start (InMemory.disk InMemory.six false))).
  - reflexivity.
  - reflexivity.
Defined.

(* ================================================================== *)
(** ** Events are never retracted *)

Section Traces.
Context {P : Platform}.
Local Open Scope py_scope.

(** The events a run may add to the trace. *)
Variable Q : event -> Prop.

Lemma appends_ret A (a : A) : appends Q (ret a).
Proof. intros s. exists []. cbn. now rewrite app_nil_r. Qed.

Lemma appends_raise A e : appends Q (@raise P A e).
Proof. intros s. exists []. cbn. now rewrite app_nil_r. Qed.

Lemma appends_emit ev : Q ev -> appends Q (emit ev).
Proof. intros Hq s. exists [ev]. split; [reflexivity | auto]. Qed.

Lemma appends_invoke X (c : call X) : Q (Called c) -> appends Q (invoke c).
Proof.
  intros Hq s. exists [Called c]. unfold invoke.
  destruct (perform c (world s)). split; [reflexivity | auto].
Qed.

Lemma appends_bind A B (m : M A) (f : A -> M B) :
  appends Q m -> (forall a, appends Q (f a)) -> appends Q (bind m f).
Proof.
  intros Hm Hf s. unfold bind.
  destruct (Hm s) as (evs & Hevs & Hq).
  destruct (m s) as [[a | e] s1]; cbn [snd] in *.
  - destruct (Hf a s1) as (evs' & Hevs' & Hq').
    exists (evs ++ evs'). rewrite Hevs', Hevs, app_assoc.
    split; [reflexivity | apply Forall_app; auto].
  - exists evs. auto.
Qed.

Lemma appends_try_except A (body : M A) handlers :
  appends Q body -> (forall e h, handlers e = Some h -> appends Q h) ->
  appends Q (try_except body handlers).
Proof.
  intros Hb Hh s. unfold try_except.
  destruct (Hb s) as (evs & Hevs & Hq).
  destruct (body s) as [[a | e] s1]; cbn [snd] in *.
  - exists evs. auto.
  - destruct (handlers e) as [h |] eqn:He.
    + destruct (Hh e h He s1) as (evs' & Hevs' & Hq').
      exists (evs ++ evs'). rewrite Hevs', Hevs, app_assoc.
      split; [reflexivity | apply Forall_app; auto].
    + exists evs. auto.
Qed.

Lemma appends_getitem obj key : appends Q (getitem obj key).
Proof.
  unfold getitem. destruct obj; try apply appends_raise.
  destruct (dict_get key d); [apply appends_ret | apply appends_raise].
Qed.

Lemma appends_json_loads data : appends Q (json_loads data).
Proof. destruct data; try apply appends_raise; apply appends_ret. Qed.

Lemma appends_py_range n : appends Q (py_range n).
Proof.
  unfold py_range. destruct (as_index n); [apply appends_ret | apply appends_raise].
Qed.

Lemma appends_py_slice obj lo hi : appends Q (py_slice obj lo hi).
Proof. destruct obj; cbn; try apply appends_raise; apply appends_ret. Qed.

Lemma appends_depth_row image_array width i :
  appends Q (depth_row image_array width i).
Proof.
  unfold depth_row.
  destruct (as_index width); [apply appends_py_slice | apply appends_raise].
Qed.

Lemma appends_for_append items row acc :
  (forall i, appends Q (row i)) -> appends Q (for_append items row acc).
Proof.
  intros Hrow. revert acc.
  induction items as [| i items IH]; intros acc; cbn [for_append].
  - apply appends_ret.
  - apply appends_bind; [apply Hrow | intros r; apply IH].
Qed.

Lemma appends_sys_exit A code : appends Q (@sys_exit P A code).
Proof. unfold sys_exit. destruct sys_imported; apply appends_raise. Qed.

(** What was in the trace stays in it. *)
Lemma appends_In A (m : M A) s ev :
  appends Q m -> In ev (trace s) -> In ev (trace (snd (m s))).
Proof.
  intros Hm Hin. destruct (Hm s) as (evs & -> & _).
  apply in_or_app. left. exact Hin.
Qed.

End Traces.

Create HintDb py_appends.
#[export] Hint Resolve appends_ret appends_raise appends_getitem
  appends_json_loads appends_py_range appends_py_slice appends_depth_row
  appends_sys_exit : py_appends.

(** Proves [appends Q] of code written with the combinators above, up to
    showing that the events it emits and the calls it invokes are in [Q]. *)
Ltac appends_tac :=
  unfold logging_debug, logging_error, print;
  repeat first
    [ apply appends_try_except;
      [| let e := fresh "e" in
         let h := fresh "h" in
         let Hh := fresh "Hh" in
         intros e h Hh; destruct e; try discriminate Hh;
         injection Hh as <- ]
    | apply appends_bind; [| intros ? ]
    | apply appends_for_append; intros ?
    | apply appends_emit
    | apply appends_invoke
    | progress auto with py_appends ].

Section TransformTraces.
Context {P : Platform}.

Lemma appends_pose data : appends transform_event (pose data).
Proof.
  unfold pose, pose_try, log_received, log_missing. appends_tac; exact I.
Qed.

Lemma appends_feelings data : appends transform_event (feelings data).
Proof.
  unfold feelings, feelings_try, log_received, log_missing.
  appends_tac; exact I.
Qed.

Lemma appends_color_image data : appends transform_event (color_image data).
Proof.
  unfold color_image, color_image_try, log_received, log_missing.
  appends_tac; exact I.
Qed.

Lemma appends_depth_image data : appends transform_event (depth_image data).
Proof.
  unfold depth_image, depth_image_try, log_received, log_missing.
  appends_tac; exact I.
Qed.

Lemma appends_registered name f data :
  dict_get name PARSERS = Some f -> appends transform_event (__call__ f data).
Proof.
  intros Hf. apply PARSERS_inv in Hf as [-> | [-> | [-> | ->]]]; cbn [__call__].
  - apply appends_pose.
  - apply appends_color_image.
  - apply appends_depth_image.
  - apply appends_feelings.
Qed.

End TransformTraces.

(* ================================================================== *)
(** ** depth_image: the rows handed to the renderer *)

Section Reshape.
Context {P : Platform}.
Local Open Scope py_scope.

(** From a non-negative start and with a non-negative length, the
    Python slice is the list slice, which stops at the end of the list. *)
Lemma slice_list_firstn_skipn A (l : list A) (lo n : Z) :
  0 <= lo -> 0 <= n ->
  slice_list l lo (lo + n) = firstn (Z.to_nat n) (skipn (Z.to_nat lo) l).
Proof.
  intros Hlo Hn. unfold slice_list.
  assert (Hl := length_skipn (Z.to_nat lo) l).
  destruct (Z.ltb_spec lo 0) as [? | _]; [lia |].
  destruct (Z.ltb_spec (lo + n) 0) as [? | _]; [lia |].
  destruct (Z.le_gt_cases (Z.of_nat (List.length l)) lo) as [Hout | Hin].
  - rewrite (skipn_all2 l) by lia.
    rewrite (skipn_all2 l) by lia.
    now rewrite !firstn_nil.
  - rewrite (Z.min_l lo) by lia.
    destruct (Z.le_gt_cases (lo + n) (Z.of_nat (List.length l))) as [Hfit | Hcut].
    + rewrite Z.min_l by lia. f_equal. lia.
    + rewrite Z.min_r by lia.
      rewrite !firstn_all2 by lia. reflexivity.
Qed.

Lemma for_append_rows (l : list json) (w : Z) items acc s :
  for_append items (depth_row (JArr l) (JInt w)) acc s =
    (Return (acc ++ map (fun i => JArr (slice_list l (i * w) (i * w + (w - 1))))
                        items), s).
Proof.
  revert acc. induction items as [| i items IH]; intros acc; cbn [for_append map].
  - now rewrite app_nil_r.
  - erewrite bind_Return by reflexivity.
    rewrite IH, <- app_assoc. reflexivity.
Qed.

Lemma grid_length l w h : List.length (grid l w h) = Z.to_nat h.
Proof. unfold grid. now rewrite !length_map, length_seq. Qed.

Lemma grid_row l w h i :
  1 <= w -> 0 <= i < h ->
  nth_error (grid l w h) (Z.to_nat i)
  = Some (firstn (Z.to_nat (w - 1)) (skipn (Z.to_nat (i * w)) l)).
Proof.
  intros Hw Hi. unfold grid.
  rewrite !nth_error_map, nth_error_seq.
  destruct (Nat.ltb_spec (Z.to_nat i) (Z.to_nat h)) as [_ | ?]; [| lia].
  cbn [option_map]. rewrite Nat.add_0_l, Z2Nat.id by lia.
  rewrite slice_list_firstn_skipn by nia. reflexivity.
Qed.

(** Up to the rendering, on a well-typed input whose file is read. *)
Lemma depth_image_try_renders (snapshot file : dict json) (s : State)
      (user_id datetime path : json) (l : list json) (w h : Z) (w1 w2 : World) :
  dict_get "user_id" snapshot = Some user_id ->
  dict_get "datetime" snapshot = Some datetime ->
  dict_get "depth_image_path" snapshot = Some path ->
  dict_get "depth_image_width" snapshot = Some (JInt w) ->
  dict_get "depth_image_height" snapshot = Some (JInt h) ->
  perform (open_read path "r") (world s) = (Return (Json (JObj file)), w1) ->
  dict_get "data" file = Some (JArr l) ->
  perform (Path_mkdir PROCESSED_DIRECTORY) w1 = (Return tt, w2) ->
  let final_path :=
    format "{}/{}_{}_depth.jpg"
           [PROCESSED_DIRECTORY; str_json user_id; str_json datetime] in
  depth_image_try (JObj snapshot) s =
    (invoke (plt_imshow (map JArr (grid l w h)) "hot" "nearest") ;;
     invoke (plt_savefig final_path) ;;
     ret (Some (Json (JObj [ ("user_id", user_id); ("datetime", datetime);
                             ("height", JInt h); ("width", JInt w);
                             ("depth_image_path", JStr final_path) ]))))
      (mkState w2 (trace s ++ [Called (open_read path "r");
                               Called (Path_mkdir PROCESSED_DIRECTORY)])).
Proof.
  intros Hu Hd Hp Hw Hh Hread Hdata Hmk final_path.
  unfold depth_image_try.
  erewrite bind_Return by (apply getitem_found; eassumption).
  erewrite bind_Return by (unfold invoke; rewrite Hread; reflexivity).
  erewrite bind_Return by reflexivity.
  erewrite bind_Return by (apply getitem_found; eassumption).
  repeat (erewrite bind_Return by (apply getitem_found; eassumption)).
  erewrite bind_Return by reflexivity.
  erewrite bind_Return by apply for_append_rows.
  erewrite bind_Return
    by (unfold invoke; cbn [world trace]; rewrite Hmk; reflexivity).
  cbn [app]. rewrite <- app_assoc. cbn [app].
  unfold grid. rewrite !map_map.
  apply bind_ext. intros [] s3.
  apply bind_ext. intros [] s4.
  repeat (erewrite bind_Return by (apply getitem_found; eassumption)).
  reflexivity.
Qed.

(** A call at the head of a [try] block is in the trace however the
    block and its handlers go on. *)
Lemma try_except_invoke_In A X (c : call X) (k : X -> M A) handlers s :
  (forall a, appends any_event (k a)) ->
  (forall e h, handlers e = Some h -> appends any_event h) ->
  In (Called c) (trace (snd (try_except (bind (invoke c) k) handlers s))).
Proof.
  intros Hk Hh.
  assert (Hrest : forall r : outcome X,
             appends any_event
                    (match r with
                    | Return a => try_except (k a) handlers
                    | Raise e => match handlers e with
                                 | Some h => h
                                 | None => raise e
                                 end
                    end)).
  { intros [a | e].
    - apply appends_try_except; [apply Hk | exact Hh].
    - destruct (handlers e) as [h |] eqn:He; [eapply Hh, He | apply appends_raise]. }
  unfold try_except, bind, invoke.
  destruct (perform c (world s)) as [r w] eqn:Hc.
  specialize (Hrest r (mkState w (trace s ++ [Called c]))).
  destruct Hrest as (evs & Hevs & _). cbn [trace] in Hevs.
  assert (Hin : In (Called c) ((trace s ++ [Called c]) ++ evs))
    by (apply in_or_app; left; apply in_or_app; right; left; reflexivity).
  rewrite <- Hevs in Hin.
  destruct r as [a | e]; [exact Hin |].
  destruct (handlers e); exact Hin.
Qed.

End Reshape.

(** C5 (as amended).  On an input with width [w >= 1], height [h] and a
    file holding the flat array [l], [depth_image] hands the renderer a
    grid of [h] rows (none when [h <= 0]); row [i] is the Python slice
    [l[i*w : i*w + (w-1)]]: the elements of [l] from index [i*w] on, at
    most [w-1] of them, fewer when [l] ends before.  The row has exactly
    [w-1] elements whenever [l] has at least [i*w + (w-1)]; so with
    [w = 3], [h = 2] and six values both rows have exactly two. *)
Theorem depth_rows_are_clipped_slices
        (P : Platform) (snapshot file : dict json) (s : State)
        (user_id datetime path : json) (l : list json) (w h : Z)
        (w1 w2 : World) :
  dict_get "user_id" snapshot = Some user_id ->
  dict_get "datetime" snapshot = Some datetime ->
  dict_get "depth_image_path" snapshot = Some path ->
  dict_get "depth_image_width" snapshot = Some (JInt w) ->
  dict_get "depth_image_height" snapshot = Some (JInt h) ->
  perform (open_read path "r") (world s) = (Return (Json (JObj file)), w1) ->
  dict_get "data" file = Some (JArr l) ->
  perform (Path_mkdir PROCESSED_DIRECTORY) w1 = (Return tt, w2) ->
  1 <= w ->
  exists new_array : list (list json),
    In (Called (plt_imshow (map JArr new_array) "hot" "nearest"))
       (trace (snd (depth_image (Json (JObj snapshot)) s))) /\
    List.length new_array = Z.to_nat h /\
    (forall i, 0 <= i < h ->
       exists row,
         nth_error new_array (Z.to_nat i) = Some row /\
         row = firstn (Z.to_nat (w - 1)) (skipn (Z.to_nat (i * w)) l) /\
         (List.length row <= Z.to_nat (w - 1))%nat /\
         (i * w + (w - 1) <= Z.of_nat (List.length l) ->
          List.length row = Z.to_nat (w - 1))) /\
    (w = 3 -> h = 2 -> List.length l = 6%nat ->
     Forall (fun row => List.length row = 2%nat) new_array).
Proof.
  intros Hu Hd Hp Hw Hh Hread Hdata Hmk Hw1.
  exists (grid l w h). split; [| split; [| split]].
  - unfold depth_image.
    erewrite bind_Return by reflexivity.
    erewrite bind_Return by (apply log_received_found; eassumption).
    erewrite try_except_ext
      by (eapply depth_image_try_renders; cbn [world]; eassumption).
    apply try_except_invoke_In.
    + intros []. appends_tac; exact I.
    + intros e h0 Hh0. destruct e; try discriminate Hh0; injection Hh0 as <-;
        unfold log_missing; appends_tac;
        first [exact I | rewrite ?Hu, ?Hd; apply appends_ret].
  - apply grid_length.
  - intros i Hi. eexists. split; [apply grid_row; assumption |].
    split; [reflexivity |]. split.
    + apply firstn_le_length.
    + intros Hfit. rewrite length_firstn, length_skipn. nia.
  - intros -> -> Hlen.
    destruct l as [| a [| b [| c [| d [| e [| f [| g l]]]]]]]; try discriminate Hlen.
    repeat constructor.
Qed.

Lemma depth_rows_are_clipped_slices_witness :
  exists new_array : list (list json),
    In (Called (plt_imshow (map JArr new_array) "hot" "nearest"))
       (trace (snd (@depth_image InMemory.platform
                      (Json (JObj InMemory.depth_snapshot))
                      (InMemory.start (InMemory.disk InMemory.six false))))) /\
    List.length new_array = Z.to_nat 2 /\
    (forall i, 0 <= i < 2 ->
       exists row,
         nth_error new_array (Z.to_nat i) = Some row /\
         row = firstn (Z.to_nat (3 - 1)) (skipn (Z.to_nat (i * 3)) InMemory.six) /\
         (List.length row <= Z.to_nat (3 - 1))%nat /\
         (i * 3 + (3 - 1) <= Z.of_nat (List.length InMemory.six) ->
          List.length row = Z.to_nat (3 - 1))) /\
    (3 = 3 -> 2 = 2 -> List.length InMemory.six = 6%nat ->
     Forall (fun row => List.length row = 2%nat) new_array).
Proof.
  eapply (@depth_rows_are_clipped_slices
            InMemory.platform InMemory.depth_snapshot
            [("data", JArr InMemory.six)]
            (InMemory.start (InMemory.disk InMemory.six false))
            (JInt 42) (JStr "2019-12-04_10-08-07") (JStr "/raw/depth.json")
            InMemory.six 3 2).
  - reflexivity.
  - reflexivity.
  - reflexivity.
  - reflexivity.
  - reflexivity.
  - reflexivity.
  - reflexivity.
  - reflexivity.
  - lia.
Defined.

(** C5 as stated fails at the end of the array: with width 3, height 2
    and a flat array of four values, the second row handed to the
    renderer starts at index 3 and has one element, not [width - 1 = 2]. *)
Lemma depth_row_is_shorter_on_short_array :
  let four := [JInt 10; JInt 11; JInt 12; JInt 13] in
  let run := @depth_image InMemory.platform (Json (JObj InMemory.depth_snapshot))
                          (InMemory.start (InMemory.disk four false)) in
  In (Called (plt_imshow [JArr [JInt 10; JInt 11]; JArr [JInt 13]] "hot" "nearest"))
     (trace (snd run)) /\
  List.length [JInt 13] <> Z.to_nat (3 - 1).
Proof.
  split.
  - vm_compute. right. right. right. left. reflexivity.
  - discriminate.
Qed.

(* ================================================================== *)
(** ** color_image and depth_image: file errors *)

Section FileErrors.
Context {P : Platform}.
Local Open Scope py_scope.

Variable snapshot : dict json.
Variables user_id datetime : json.
Hypothesis Huser : dict_get "user_id" snapshot = Some user_id.
Hypothesis Hdate : dict_get "datetime" snapshot = Some datetime.

(** An [OSError] raised anywhere in the [try] block of [color_image]
    is logged and turned into [None]. *)
Lemma color_image_catches_OSError s msg s1 :
  color_image_try (JObj snapshot)
                  (mkState (world s) (trace s ++ [received user_id datetime]))
  = (Raise (OSError msg), s1) ->
  color_image (Json (JObj snapshot)) s =
    (Return None, mkState (world s1) (trace s1 ++ [color_file_error msg])).
Proof.
  intros Htry. unfold color_image.
  erewrite bind_Return by reflexivity.
  erewrite bind_Return by (apply log_received_found; eassumption).
  erewrite try_except_caught; [| apply Htry | reflexivity].
  reflexivity.
Qed.

Lemma depth_image_catches_OSError s msg s1 :
  depth_image_try (JObj snapshot)
                  (mkState (world s) (trace s ++ [received user_id datetime]))
  = (Raise (OSError msg), s1) ->
  depth_image (Json (JObj snapshot)) s =
    (Return None,
     mkState (world s1) (trace s1 ++ [depth_file_error user_id datetime msg])).
Proof.
  intros Htry. unfold depth_image.
  erewrite bind_Return by reflexivity.
  erewrite bind_Return by (apply log_received_found; eassumption).
  erewrite try_except_caught; [| apply Htry | reflexivity].
  repeat (erewrite bind_Return by (apply getitem_found; eassumption)).
  reflexivity.
Qed.

Lemma invoke_Return X (c : call X) s a w :
  perform c (world s) = (Return a, w) ->
  invoke c s = (Return a, mkState w (trace s ++ [Called c])).
Proof. unfold invoke. intros ->. reflexivity. Qed.

Lemma invoke_Raise X (c : call X) s e w :
  perform c (world s) = (Raise e, w) ->
  invoke c s = (Raise e, mkState w (trace s ++ [Called c])).
Proof. unfold invoke. intros ->. reflexivity. Qed.

Lemma color_image_read_fails s path msg w1 :
  dict_get "color_image_path" snapshot = Some path ->
  perform (open_read path "rb") (world s) = (Raise (OSError msg), w1) ->
  color_image (Json (JObj snapshot)) s =
    (Return None,
     mkState w1 (trace s ++ [received user_id datetime;
                             Called (open_read path "rb");
                             color_file_error msg])).
Proof.
  intros Hp Hread.
  erewrite color_image_catches_OSError.
  2:{ unfold color_image_try.
      erewrite bind_Return by (apply getitem_found; eassumption).
      apply bind_Raise, invoke_Raise. exact Hread. }
  cbn [world trace]. now rewrite <- !app_assoc.
Qed.

Lemma color_image_save_fails s path width height image_bytes img msg w1 w2 w3 w4 :
  dict_get "color_image_path" snapshot = Some path ->
  dict_get "color_image_width" snapshot = Some width ->
  dict_get "color_image_height" snapshot = Some height ->
  let final_path :=
    format "{}/{}_{}_color.jpg"
           [PROCESSED_DIRECTORY; str_json user_id; str_json datetime] in
  perform (open_read path "rb") (world s) = (Return image_bytes, w1) ->
  perform (Path_mkdir PROCESSED_DIRECTORY) w1 = (Return tt, w2) ->
  perform (Image_frombytes "RGB" width height image_bytes) w2 = (Return img, w3) ->
  perform (Image_save img final_path) w3 = (Raise (OSError msg), w4) ->
  color_image (Json (JObj snapshot)) s =
    (Return None,
     mkState w4 (trace s ++ [received user_id datetime;
                             Called (open_read path "rb");
                             Called (Path_mkdir PROCESSED_DIRECTORY);
                             Called (Image_frombytes "RGB" width height image_bytes);
                             Called (Image_save img final_path);
                             color_file_error msg])).
Proof.
  intros Hp Hw Hh final_path Hread Hmk Hfb Hsave.
  erewrite color_image_catches_OSError.
  2:{ unfold color_image_try.
      erewrite bind_Return by (apply getitem_found; eassumption).
      erewrite bind_Return by (apply invoke_Return; exact Hread).
      erewrite bind_Return by (apply invoke_Return; exact Hmk).
      repeat (erewrite bind_Return by (apply getitem_found; eassumption)).
      erewrite bind_Return by (apply invoke_Return; exact Hfb).
      apply bind_Raise, invoke_Raise. exact Hsave. }
  cbn [world trace]. now rewrite <- !app_assoc.
Qed.

Lemma depth_image_read_fails s path msg w1 :
  dict_get "depth_image_path" snapshot = Some path ->
  perform (open_read path "r") (world s) = (Raise (OSError msg), w1) ->
  depth_image (Json (JObj snapshot)) s =
    (Return None,
     mkState w1 (trace s ++ [received user_id datetime;
                             Called (open_read path "r");
                             depth_file_error user_id datetime msg])).
Proof.
  intros Hp Hread.
  erewrite depth_image_catches_OSError.
  2:{ unfold depth_image_try.
      erewrite bind_Return by (apply getitem_found; eassumption).
      apply bind_Raise, invoke_Raise. exact Hread. }
  cbn [world trace]. now rewrite <- !app_assoc.
Qed.

Lemma depth_image_savefig_fails s path file l w h msg w1 w2 w3 w4 :
  dict_get "depth_image_path" snapshot = Some path ->
  dict_get "depth_image_width" snapshot = Some (JInt w) ->
  dict_get "depth_image_height" snapshot = Some (JInt h) ->
  let final_path :=
    format "{}/{}_{}_depth.jpg"
           [PROCESSED_DIRECTORY; str_json user_id; str_json datetime] in
  perform (open_read path "r") (world s) = (Return (Json (JObj file)), w1) ->
  dict_get "data" file = Some (JArr l) ->
  perform (Path_mkdir PROCESSED_DIRECTORY) w1 = (Return tt, w2) ->
  perform (plt_imshow (map JArr (grid l w h)) "hot" "nearest") w2
  = (Return tt, w3) ->
  perform (plt_savefig final_path) w3 = (Raise (OSError msg), w4) ->
  depth_image (Json (JObj snapshot)) s =
    (Return None,
     mkState w4 (trace s ++ [received user_id datetime;
                             Called (open_read path "r");
                             Called (Path_mkdir PROCESSED_DIRECTORY);
                             Called (plt_imshow (map JArr (grid l w h))
                                                "hot" "nearest");
                             Called (plt_savefig final_path);
                             depth_file_error user_id datetime msg])).
Proof.
  intros Hp Hw Hh final_path Hread Hdata Hmk Hshow Hsave.
  erewrite depth_image_catches_OSError.
  2:{ erewrite depth_image_try_renders; try eassumption.
      erewrite bind_Return by (apply invoke_Return; exact Hshow).
      apply bind_Raise, invoke_Raise. exact Hsave. }
  cbn [world trace]. now rewrite <- !app_assoc.
Qed.

End FileErrors.

(** C9.  In [color_image] and [depth_image], on a record carrying the
    correlation key, an [OSError] ([IOError] is the same class) raised
    in the [try] block is caught: the transform logs an error and returns
    [None], so no exception leaves it.  This is so for an [OSError]
    raised anywhere in the block, and in particular when reading the
    source file fails and when, everything before having gone well,
    writing the derived image fails. *)
Theorem file_errors_are_logged_and_rejected
        (P : Platform) (snapshot : dict json) (user_id datetime : json)
        (s : State) (msg : string) :
  dict_get "user_id" snapshot = Some user_id ->
  dict_get "datetime" snapshot = Some datetime ->
  let s0 := mkState (world s) (trace s ++ [received user_id datetime]) in
  (* any OSError of the try block *)
  (forall s1,
      color_image_try (JObj snapshot) s0 = (Raise (OSError msg), s1) ->
      color_image (Json (JObj snapshot)) s =
        (Return None, mkState (world s1) (trace s1 ++ [color_file_error msg])))
  /\
  (forall s1,
      depth_image_try (JObj snapshot) s0 = (Raise (OSError msg), s1) ->
      depth_image (Json (JObj snapshot)) s =
        (Return None,
         mkState (world s1)
                 (trace s1 ++ [depth_file_error user_id datetime msg])))
  /\
  (* reading the source artifact fails *)
  (forall path w1,
      dict_get "color_image_path" snapshot = Some path ->
      perform (open_read path "rb") (world s) = (Raise (OSError msg), w1) ->
      color_image (Json (JObj snapshot)) s =
        (Return None,
         mkState w1 (trace s ++ [received user_id datetime;
                                 Called (open_read path "rb");
                                 color_file_error msg])))
  /\
  (forall path w1,
      dict_get "depth_image_path" snapshot = Some path ->
      perform (open_read path "r") (world s) = (Raise (OSError msg), w1) ->
      depth_image (Json (JObj snapshot)) s =
        (Return None,
         mkState w1 (trace s ++ [received user_id datetime;
                                 Called (open_read path "r");
                                 depth_file_error user_id datetime msg])))
  /\
  (* writing the derived artifact fails *)
  (forall path width height image_bytes img w1 w2 w3 w4,
      dict_get "color_image_path" snapshot = Some path ->
      dict_get "color_image_width" snapshot = Some width ->
      dict_get "color_image_height" snapshot = Some height ->
      let final_path :=
        format "{}/{}_{}_color.jpg"
               [PROCESSED_DIRECTORY; str_json user_id; str_json datetime] in
      perform (open_read path "rb") (world s) = (Return image_bytes, w1) ->
      perform (Path_mkdir PROCESSED_DIRECTORY) w1 = (Return tt, w2) ->
      perform (Image_frombytes "RGB" width height image_bytes) w2
      = (Return img, w3) ->
      perform (Image_save img final_path) w3 = (Raise (OSError msg), w4) ->
      color_image (Json (JObj snapshot)) s =
        (Return None,
         mkState w4 (trace s ++ [received user_id datetime;
                                 Called (open_read path "rb");
                                 Called (Path_mkdir PROCESSED_DIRECTORY);
                                 Called (Image_frombytes "RGB" width height
                                                         image_bytes);
                                 Called (Image_save img final_path);
                                 color_file_error msg])))
  /\
  (forall path file l w h w1 w2 w3 w4,
      dict_get "depth_image_path" snapshot = Some path ->
      dict_get "depth_image_width" snapshot = Some (JInt w) ->
      dict_get "depth_image_height" snapshot = Some (JInt h) ->
      let final_path :=
        format "{}/{}_{}_depth.jpg"
               [PROCESSED_DIRECTORY; str_json user_id; str_json datetime] in
      perform (open_read path "r") (world s) = (Return (Json (JObj file)), w1) ->
      dict_get "data" file = Some (JArr l) ->
      perform (Path_mkdir PROCESSED_DIRECTORY) w1 = (Return tt, w2) ->
      perform (plt_imshow (map JArr (grid l w h)) "hot" "nearest") w2
      = (Return tt, w3) ->
      perform (plt_savefig final_path) w3 = (Raise (OSError msg), w4) ->
      depth_image (Json (JObj snapshot)) s =
        (Return None,
         mkState w4 (trace s ++ [received user_id datetime;
                                 Called (open_read path "r");
                                 Called (Path_mkdir PROCESSED_DIRECTORY);
                                 Called (plt_imshow (map JArr (grid l w h))
                                                    "hot" "nearest");
                                 Called (plt_savefig final_path);
                                 depth_file_error user_id datetime msg]))).
Proof.
  intros Hu Hd s0.
  split; [| split; [| split; [| split; [| split]]]].
  - intros s1. apply color_image_catches_OSError; assumption.
  - intros s1. apply depth_image_catches_OSError; assumption.
  - intros path w1. apply color_image_read_fails; assumption.
  - intros path w1. apply depth_image_read_fails; assumption.
  - intros path width height image_bytes img w1 w2 w3 w4 Hp Hw Hh final_path.
    apply color_image_save_fails; assumption.
  - intros path file l w h w1 w2 w3 w4 Hp Hw Hh final_path.
    apply depth_image_savefig_fails; assumption.
Qed.

Lemma file_errors_are_logged_and_rejected_witness :
  (* the source file of color_image does not exist *)
  @color_image InMemory.platform (Json (JObj InMemory.color_snapshot))
               (InMemory.start (InMemory.mkfs [] false))
  = (Return None,
     @mkState InMemory.platform (InMemory.mkfs [] false)
       [Logged "DEBUG"
          "Received Snapshot from user 42, Snapshot 2019-12-04_10-08-07";
        Called (open_read (JStr "/raw/color.bin") "rb");
        Logged "ERROR" "Error: file error: No such file or directory"])
  /\
  (* the file system of depth_image is read-only *)
  @depth_image InMemory.platform (Json (JObj InMemory.depth_snapshot))
               (InMemory.start (InMemory.disk InMemory.six true))
  = (Return None,
     @mkState InMemory.platform (InMemory.disk InMemory.six true)
       [Logged "DEBUG"
          "Received Snapshot from user 42, Snapshot 2019-12-04_10-08-07";
        Called (open_read (JStr "/raw/depth.json") "r");
        Called (Path_mkdir "/cortex/files/processed");
        Called (plt_imshow [JArr [JInt 10; JInt 11]; JArr [JInt 13; JInt 14]]
                           "hot" "nearest");
        Called (plt_savefig
                  "/cortex/files/processed/42_2019-12-04_10-08-07_depth.jpg");
        Logged "ERROR"
          "Error: file error for snapshot 2019-12-04_10-08-07 by user 42: Read-only file system"]).
Proof.
  split.
  - destruct (@file_errors_are_logged_and_rejected
                InMemory.platform InMemory.color_snapshot
                (JInt 42) (JStr "2019-12-04_10-08-07")
                (InMemory.start (InMemory.mkfs [] false))
                "No such file or directory" eq_refl eq_refl)
      as (_ & _ & Hread & _).
    exact (Hread (JStr "/raw/color.bin") (InMemory.mkfs [] false)
                 eq_refl eq_refl).
  - destruct (@file_errors_are_logged_and_rejected
                InMemory.platform InMemory.depth_snapshot
                (JInt 42) (JStr "2019-12-04_10-08-07")
                (InMemory.start (InMemory.disk InMemory.six true))
                "Read-only file system" eq_refl eq_refl)
      as (_ & _ & _ & _ & _ & Hwrite).
    exact (Hwrite (JStr "/raw/depth.json") [("data", JArr InMemory.six)]
                  InMemory.six 3 2
                  (InMemory.disk InMemory.six true) (InMemory.disk InMemory.six true)
                  (InMemory.disk InMemory.six true) (InMemory.disk InMemory.six true)
                  eq_refl eq_refl eq_refl eq_refl eq_refl eq_refl eq_refl
                  eq_refl).
Defined.

(* ================================================================== *)
(** ** The registry *)

Section DictLaws.
Variable V : Type.

Lemma dict_get_set_same k (v : V) d : dict_get k (dict_set k v d) = Some v.
Proof.
  induction d as [| [k' v'] d IH]; cbn.
  - now rewrite String.eqb_refl.
  - destruct (String.eqb k k') eqn:Hk; cbn; rewrite Hk; [reflexivity | exact IH].
Qed.

Lemma dict_get_set_other k k0 (v : V) d :
  k0 <> k -> dict_get k0 (dict_set k v d) = dict_get k0 d.
Proof.
  intros Hne. induction d as [| [k' v'] d IH]; cbn.
  - destruct (String.eqb_spec k0 k); [contradiction | reflexivity].
  - destruct (String.eqb_spec k k') as [<- | Hk]; cbn.
    + destruct (String.eqb_spec k0 k); [contradiction | reflexivity].
    + destruct (String.eqb k0 k'); [reflexivity | exact IH].
Qed.

Lemma dict_keys_set_present k (v : V) d :
  dict_mem k d = true -> dict_keys (dict_set k v d) = dict_keys d.
Proof.
  unfold dict_mem, dict_keys.
  induction d as [| [k' v'] d IH]; cbn; [discriminate |].
  destruct (String.eqb k k'); cbn; [reflexivity |].
  intros H. now rewrite IH.
Qed.

Lemma dict_keys_set_absent k (v : V) d :
  dict_mem k d = false -> dict_keys (dict_set k v d) = dict_keys d ++ [k].
Proof.
  unfold dict_mem, dict_keys.
  induction d as [| [k' v'] d IH]; cbn; [reflexivity |].
  destruct (String.eqb k k'); cbn; [discriminate |].
  intros H. now rewrite IH.
Qed.

End DictLaws.

(** C6 (as amended).  Registering a function whose name is already in
    the registry does not fail: the decorator returns the function, the
    registry keeps its names in their order, the name is bound to the new
    function in place of the one registered before, and the other names
    keep their transforms. *)
Theorem parser_rebinds_registered_name
        (P : Platform) (func : function) (parsers_dict : dict function) :
  dict_mem (__name__ func) parsers_dict = true ->
  snd (parser func parsers_dict) = func /\
  dict_get (__name__ func) (fst (parser func parsers_dict)) = Some func /\
  dict_keys (fst (parser func parsers_dict)) = dict_keys parsers_dict /\
  (forall name, name <> __name__ func ->
                dict_get name (fst (parser func parsers_dict))
                = dict_get name parsers_dict).
Proof.
  intros Hmem. unfold parser. cbn [fst snd].
  split; [reflexivity |].
  split; [apply dict_get_set_same |].
  split; [apply dict_keys_set_present, Hmem |].
  intros name Hne. apply dict_get_set_other, Hne.
Qed.

Lemma parser_rebinds_registered_name_witness :
  let func := @def InMemory.platform "pose" feelings in
  snd (parser func PARSERS) = func /\
  dict_get "pose" (fst (parser func PARSERS)) = Some func /\
  dict_keys (fst (parser func PARSERS))
  = ["pose"; "color_image"; "depth_image"; "feelings"] /\
  (forall name, name <> "pose" ->
                dict_get name (fst (parser func PARSERS))
                = dict_get name PARSERS).
Proof.
  intros func.
  apply (@parser_rebinds_registered_name InMemory.platform func PARSERS).
  reflexivity.
Defined.

(** C6 as stated fails: a second function registered under the name
    [pose] raises nothing and takes the place of the first; the registry
    has the one name, and dispatching to it runs the second function. *)
Lemma second_registration_shadows_first :
  let first := @def InMemory.platform "pose" pose in
  let second := @def InMemory.platform "pose" feelings in
  let registry := fst (parser second (fst (parser first []))) in
  let data := Json (JObj InMemory.feelings_snapshot) in
  let s := InMemory.start (InMemory.disk [] false) in
  dict_keys registry = ["pose"] /\
  dict_get "pose" registry = Some second /\
  run_parser registry "pose" data s = feelings data s /\
  run_parser registry "pose" data s <> pose data s.
Proof.
  cbv zeta. split; [reflexivity |]. split; [reflexivity |].
  split; [reflexivity |].
  vm_compute. discriminate.
Qed.

(* ================================================================== *)
(** ** The entry point on an unknown name *)

Lemma numbered_nth count names i name :
  nth_error names i = Some name ->
  nth_error (numbered count names) i
  = Some (str_int (count + Z.of_nat i + 1) ++ ". " ++ name)%string.
Proof.
  revert count i. induction names as [| n names IH]; intros count [| i] H;
    cbn in H; try discriminate.
  - injection H as ->. cbn. now rewrite Z.add_0_r.
  - cbn [numbered nth_error]. rewrite (IH _ _ H). do 3 f_equal. lia.
Qed.

Lemma append_empty_r (a : string) : (a ++ "")%string = a.
Proof. induction a as [| c a IH]; cbn; [reflexivity | now rewrite IH]. Qed.

Lemma format_numbered a b : format "{}. {}" [a; b] = (a ++ ". " ++ b)%string.
Proof. cbn. now rewrite append_empty_r. Qed.

Section EntryPoint.
Context {P : Platform}.
Variable globals_PARSERS : dict function.

Lemma error_list_loop_prints names count s :
  error_list_loop names count s =
    (Return tt, mkState (world s) (trace s ++ map Printed (numbered count names))).
Proof.
  revert count s. induction names as [| name names IH]; intros count s;
    cbn [error_list_loop numbered map].
  - rewrite app_nil_r. destruct s; reflexivity.
  - erewrite bind_Return by reflexivity.
    rewrite IH, format_numbered. cbn [world trace].
    now rewrite <- app_assoc.
Qed.

Lemma error_list_parsers_prints s :
  error_list_parsers globals_PARSERS s =
    (Return tt,
     mkState (world s)
       (trace s ++ Printed "Error: Unknown parser. Available parsers:"
                :: map Printed (numbered 0 (dict_keys globals_PARSERS)))).
Proof.
  unfold error_list_parsers.
  erewrite bind_Return by reflexivity.
  rewrite error_list_loop_prints. cbn [world trace].
  now rewrite <- app_assoc.
Qed.

End EntryPoint.

(** C7.  Called with a name that is not registered, whatever the action
    and the other arguments, [run_parser_wrapper] prints the heading and
    one numbered line per registered name, in registry order, and does
    nothing else; it ends by an exception ([SystemExit(1)] from
    [sys.exit(1)], or [NameError] if [sys] is not bound), on which the
    process exits with status 1. *)
Theorem unknown_parser_lists_names_and_exits
        (P : Platform) (globals_PARSERS : dict function)
        (parser_name : string) (data mq : json) (action : string)
        (deliveries : list bytes) (s : State) :
  dict_mem parser_name globals_PARSERS = false ->
  exists e,
    run_parser_wrapper globals_PARSERS parser_name data mq action deliveries s =
      (Raise e,
       mkState (world s)
         (trace s ++ Printed "Error: Unknown parser. Available parsers:"
                  :: map Printed (numbered 0 (dict_keys globals_PARSERS)))) /\
    exit_status (@Raise (option bytes) e) = 1 /\
    exit_status (@Raise (option bytes) e) <> 0 /\
    (forall i name,
        nth_error (dict_keys globals_PARSERS) i = Some name ->
        nth_error (numbered 0 (dict_keys globals_PARSERS)) i
        = Some (str_int (Z.of_nat i + 1) ++ ". " ++ name)%string).
Proof.
  intros Hmem.
  exists (if sys_imported then SystemExit 1 else NameError "sys").
  split; [| split; [| split]].
  - unfold run_parser_wrapper. rewrite Hmem. cbn [negb].
    apply bind_Raise.
    erewrite bind_Return by apply error_list_parsers_prints.
    unfold sys_exit. destruct sys_imported; reflexivity.
  - destruct sys_imported; reflexivity.
  - destruct sys_imported; discriminate.
  - intros i name H. now rewrite (numbered_nth 0 _ _ H).
Qed.

Lemma unknown_parser_lists_names_and_exits_witness :
  exists e,
    @run_parser_wrapper InMemory.platform PARSERS "nosuch"
       (JStr "/raw/snapshot.json") JNull "once" []
       (InMemory.start (InMemory.disk [] false)) =
      (Raise e,
       @mkState InMemory.platform (InMemory.disk [] false)
         ([] ++ Printed "Error: Unknown parser. Available parsers:"
             :: map Printed (numbered 0 (dict_keys (@PARSERS InMemory.platform))))) /\
    exit_status (@Raise (option bytes) e) = 1 /\
    exit_status (@Raise (option bytes) e) <> 0 /\
    (forall i name,
        nth_error (dict_keys (@PARSERS InMemory.platform)) i = Some name ->
        nth_error (numbered 0 (dict_keys (@PARSERS InMemory.platform))) i
        = Some (str_int (Z.of_nat i + 1) ++ ". " ++ name)%string).
Proof.
  apply (@unknown_parser_lists_names_and_exits
           InMemory.platform PARSERS "nosuch" (JStr "/raw/snapshot.json") JNull
           "once" [] (InMemory.start (InMemory.disk [] false))).
  reflexivity.
Defined.

(** The lines printed for the registry of the module. *)
Example numbered_PARSERS (P : Platform) :
  numbered 0 (dict_keys PARSERS)
  = ["1. pose"; "2. color_image"; "3. depth_image"; "4. feelings"].
Proof. reflexivity. Qed.

(* ================================================================== *)
(** ** The service loop *)

Section Service.
Context {P : Platform}.
Local Open Scope py_scope.

Lemma run_parser_inv name data s r s' :
  run_parser PARSERS name data s = (Return r, s') ->
  exists f, dict_get name PARSERS = Some f /\ __call__ f data s = (Return r, s').
Proof.
  unfold run_parser.
  destruct (dict_get name PARSERS) as [f |]; [eauto | discriminate].
Qed.


(** A transform leaves the broker alone. *)
Lemma run_parser_events name data s r s' :
  run_parser PARSERS name data s = (Return r, s') ->
  exists evs, trace s' = trace s ++ evs /\ Forall transform_event evs.
Proof.
  intros H. apply run_parser_inv in H as (f & Hf & H).
  destruct (@appends_registered P name f data Hf s) as (evs & Hevs & Hq).
  rewrite H in Hevs. eauto.
Qed.



End Service.

(** C8.  When the transform run by [parser_callback] returns, it has
    added to the trace only log lines and calls to the file system and
    the imaging libraries, none to the broker.  If it returned [None],
    the callback returns at once: nothing is published.  If it returned
    a result and the publishing channel is opened and the exchange
    declared, the callback declares the topic exchange [processed_data],
    which is not the inbound exchange [snapshot], logs, and makes one
    [basic_publish] call, on that exchange, with the transform name as
    routing key and the result itself as body. *)
Theorem callback_publishes_result_or_nothing
        (P : Platform) (parser_name : string) (conn : connection)
        (body : bytes) (s s1 : State) (r : option bytes) :
  run_parser PARSERS parser_name body s = (Return r, s1) ->
  (exists evs, trace s1 = trace s ++ evs /\ Forall transform_event evs) /\
  match r with
  | None =>
      parser_callback PARSERS parser_name conn body s = (Return tt, s1)
  | Some result =>
      forall ch w2 w3,
        perform (connection_channel conn) (world s1) = (Return ch, w2) ->
        perform (exchange_declare ch "processed_data" "topic") w2
        = (Return tt, w3) ->
        exists record user_id datetime,
          result = Json (JObj record) /\
          dict_get "user_id" record = Some user_id /\
          dict_get "datetime" record = Some datetime /\
          let publish := basic_publish ch "processed_data" parser_name result in
          parser_callback PARSERS parser_name conn body s =
            (fst (perform publish w3),
             mkState (snd (perform publish w3))
               (trace s1 ++
                  [ Called (connection_channel conn);
                    Called (exchange_declare ch "processed_data" "topic");
                    Logged "DEBUG"
                      (format "Publishing Back to MQ Data processed by {}, user {}, Snapshot {}"
                              [parser_name; str_json user_id; str_json datetime]);
                    Called publish ]))
  end /\
  EXCHANGE_PUBLISH = "processed_data" /\
  EXCHANGE_PUBLISH <> EXCHANGE_NAME.
Proof.
  intros Hrun.
  split; [eapply run_parser_events, Hrun |].
  split; [| split; [reflexivity | discriminate]].
  destruct r as [result |].
  - intros ch w2 w3 Hch Hdecl.
    destruct (run_parser_inv _ _ _ Hrun) as (f & Hf & Hcall).
    destruct (@registered_result_echoes P parser_name f body s result s1 Hf Hcall)
      as (snapshot_json & _ & snapshot & record & user_id & datetime
          & -> & Hu & Hd & _).
    exists record, user_id, datetime.
    split; [reflexivity |]. split; [exact Hu |]. split; [exact Hd |].
    cbv zeta. unfold parser_callback.
    erewrite bind_Return by exact Hrun.
    cbv beta iota.
    erewrite bind_Return by reflexivity.
    erewrite bind_Return by (apply invoke_Return; exact Hch).
    erewrite bind_Return
      by (apply invoke_Return; cbn [world]; unfold EXCHANGE_PUBLISH; exact Hdecl).
    repeat (erewrite bind_Return by (apply getitem_found; eassumption)).
    erewrite bind_Return by reflexivity.
    unfold invoke, EXCHANGE_PUBLISH. cbn [world trace].
    destruct (perform _ w3) as [res w4]. cbn [fst snd].
    now rewrite <- !app_assoc.
  - unfold parser_callback.
    erewrite bind_Return by exact Hrun. reflexivity.
Qed.

Lemma callback_publishes_result_or_nothing_witness :
  let result :=
    Json (JObj [ ("user_id", JInt 42);
                 ("datetime", JStr "2019-12-04_10-08-07");
                 ("happiness", JInt 1); ("thirst", JInt 2);
                 ("hunger", JInt 3); ("exhaustion", JInt 4) ]) in
  let w := InMemory.disk [] false in
  @parser_callback InMemory.platform PARSERS "feelings" (Connection 0)
                   (Json (JObj InMemory.feelings_snapshot)) (InMemory.start w)
  = (Return tt,
     @mkState InMemory.platform w
       [ Logged "DEBUG"
           "Received Snapshot from user 42, Snapshot 2019-12-04_10-08-07";
         Called (connection_channel (Connection 0));
         Called (exchange_declare (Channel 0) "processed_data" "topic");
         Logged "DEBUG"
           "Publishing Back to MQ Data processed by feelings, user 42, Snapshot 2019-12-04_10-08-07";
         Called (basic_publish (Channel 0) "processed_data" "feelings" result) ]).
Proof.
  intros result w.
  destruct (@callback_publishes_result_or_nothing
              InMemory.platform "feelings" (Connection 0)
              (Json (JObj InMemory.feelings_snapshot)) (InMemory.start w)
              (@mkState InMemory.platform w
                 [Logged "DEBUG"
                    "Received Snapshot from user 42, Snapshot 2019-12-04_10-08-07"])
              (Some result) eq_refl)
    as (_ & Hpublish & _).
  destruct (Hpublish (Channel 0) w w eq_refl eq_refl)
    as (record & user_id & datetime & Hrecord & Hu & Hd & Hcallback).
  injection Hrecord as <-.
  injection Hu as <-. injection Hd as <-.
  exact Hcallback.
Defined.




(* ================================================================== *)
(** ** Runs on the in-memory platform *)

(** One [pose] message consumed by the service loop of [pose]: the
    result goes to the exchange [processed_data] under the routing key
    [pose]; then the broker closes the connection, which is the broker
    error the loop exits on. *)
Example service_loop_publishes_pose :
  let s := InMemory.start (InMemory.disk [] false) in
  let run :=
    @run_parser_service InMemory.platform PARSERS "pose" (JStr "127.0.0.1")
      [Json (JObj InMemory.pose_snapshot)] s in
  fst run = Raise (SystemExit 1) /\
  In (Called
        (basic_publish (Channel 0) "processed_data" "pose"
           (Json (JObj [ ("user_id", JInt 42);
                         ("datetime", JStr "2019-12-04_10-08-07");
                         ("rotation_x", JInt 1); ("rotation_y", JInt 2);
                         ("rotation_z", JInt 3); ("rotation_w", JInt 4);
                         ("translation_x", JInt 5); ("translation_y", JInt 6);
                         ("translation_z", JInt 7) ]))))
     (trace (snd run)) /\
  In (Logged "ERROR" "Error in run_parser_service: connection closed")
     (trace (snd run)).
Proof.
  cbv zeta. split; [reflexivity |]. split; vm_compute; tauto.
Qed.

(** [color_image] on a 2 x 2 image of twelve bytes: the file is written
    at the deterministic path and the result carries the dimensions. *)
Example color_image_writes_file :
  let s := InMemory.start (InMemory.disk [] false) in
  let run := @color_image InMemory.platform
               (Json (JObj InMemory.color_snapshot)) s in
  let final_path := "/cortex/files/processed/42_2019-12-04_10-08-07_color.jpg" in
  fst run =
    Return (Some (Json (JObj [ ("user_id", JInt 42);
                               ("datetime", JStr "2019-12-04_10-08-07");
                               ("color_image_path", JStr final_path);
                               ("height", JInt 2); ("width", JInt 2) ]))) /\
  dict_mem final_path (InMemory.files (world (snd run))) = true.
Proof. cbv zeta. split; reflexivity. Qed.

(** A string is sliced by code points: in the five bytes of [a], the euro
    sign and [b], the slice [1:2] is the three bytes of the euro sign. *)
Example py_slice_by_code_points (P : Platform) (s : State) :
  let euro := String "226" (String "130" (String "172" EmptyString)) in
  py_slice (JStr ("a" ++ euro ++ "b")%string) 1 2 s = (Return (JStr euro), s) /\
  py_slice (JStr ("a" ++ euro ++ "b")%string) 0 (-1) s
  = (Return (JStr ("a" ++ euro)%string), s).
Proof. split; reflexivity. Qed.

(** Python's slices on a list of four. *)
Example slice_list_examples :
  slice_list [1; 2; 3; 4] 0 2 = [1; 2] /\
  slice_list [1; 2; 3; 4] 3 5 = [4] /\
  slice_list [1; 2; 3; 4] 6 8 = [] /\
  slice_list [1; 2; 3; 4] 0 (-1) = [1; 2; 3] /\
  slice_list [1; 2; 3; 4] (-3) (-1) = [2; 3] /\
  slice_list [1; 2; 3; 4] 3 1 = [].
Proof. repeat split. Qed.

(* ================================================================== *)
(** * Further properties *)

(** ** pose and feelings do nothing but log *)

Section OnlyLogs.
Context {P : Platform}.
Local Open Scope py_scope.

Lemma only_logs_ret A (a : A) : only_logs (ret a).
Proof.
  exists (Return a), []. split; [constructor |].
  intros [w t]. unfold ret. cbn. now rewrite app_nil_r.
Qed.

Lemma only_logs_raise A e : only_logs (@raise P A e).
Proof.
  exists (Raise e), []. split; [constructor |].
  intros [w t]. unfold raise. cbn. now rewrite app_nil_r.
Qed.

Lemma only_logs_logged level msg : only_logs (emit (Logged level msg)).
Proof.
  exists (Return tt), [Logged level msg].
  split; [repeat constructor | reflexivity].
Qed.

Lemma only_logs_bind A B (m : M A) (f : A -> M B) :
  only_logs m -> (forall a, only_logs (f a)) -> only_logs (bind m f).
Proof.
  intros (r & lines & Hlog & Hm) Hf. destruct r as [a | e].
  - destruct (Hf a) as (r' & lines' & Hlog' & Hfa).
    exists r', (lines ++ lines'). split; [apply Forall_app; auto |].
    intros s. unfold bind. rewrite Hm, Hfa. cbn [world trace].
    now rewrite app_assoc.
  - exists (Raise e), lines. split; [exact Hlog |].
    intros s. unfold bind. now rewrite Hm.
Qed.

Lemma only_logs_try_except A (body : M A) handlers :
  only_logs body -> (forall e h, handlers e = Some h -> only_logs h) ->
  only_logs (try_except body handlers).
Proof.
  intros (r & lines & Hlog & Hb) Hh. destruct r as [a | e].
  - exists (Return a), lines. split; [exact Hlog |].
    intros s. unfold try_except. now rewrite Hb.
  - destruct (handlers e) as [h |] eqn:He.
    + destruct (Hh e h He) as (r' & lines' & Hlog' & Hrun).
      exists r', (lines ++ lines'). split; [apply Forall_app; auto |].
      intros s. unfold try_except. rewrite Hb, He, Hrun. cbn [world trace].
      now rewrite app_assoc.
    + exists (Raise e), lines. split; [exact Hlog |].
      intros s. unfold try_except. now rewrite Hb, He.
Qed.

Lemma only_logs_getitem obj key : only_logs (getitem obj key).
Proof.
  unfold getitem. destruct obj; try apply only_logs_raise.
  destruct (dict_get key d); [apply only_logs_ret | apply only_logs_raise].
Qed.

Lemma only_logs_json_loads data : only_logs (json_loads data).
Proof. destruct data; try apply only_logs_raise; apply only_logs_ret. Qed.

End OnlyLogs.

Ltac only_logs_tac :=
  unfold logging_debug, logging_error;
  repeat first
    [ apply only_logs_try_except;
      [| let e := fresh "e" in
         let h := fresh "h" in
         let Hh := fresh "Hh" in
         intros e h Hh; destruct e; try discriminate Hh;
         injection Hh as <- ]
    | apply only_logs_bind; [| intros ? ]
    | apply only_logs_logged
    | apply only_logs_getitem
    | apply only_logs_json_loads
    | apply only_logs_ret
    | apply only_logs_raise ].

(** X1.  [pose] and [feelings] are functions of the message body alone:
    whatever the state and the platform's answers, a body gives the same
    outcome (a result, [None] or an exception), the world is left as it
    is, and the run adds log lines only, the same ones each time.  So
    they make no external call, and running one twice on the same body
    gives the same result. *)
Theorem pose_and_feelings_only_log (P : Platform) (data : bytes) :
  only_logs (pose data) /\ only_logs (feelings data).
Proof.
  split.
  - unfold pose, pose_try, log_received, log_missing. only_logs_tac.
  - unfold feelings, feelings_try, log_received, log_missing. only_logs_tac.
Qed.

(** ** pose and feelings: each field *)

Section Fields.
Context {P : Platform}.
Local Open Scope py_scope.

Variable snapshot : dict json.
Variables user_id datetime : json.
Hypothesis Huser : dict_get "user_id" snapshot = Some user_id.
Hypothesis Hdate : dict_get "datetime" snapshot = Some datetime.

(** A [KeyError] of the [try] block of [pose] is logged with the
    correlation key and turned into [None]. *)
Lemma pose_catches_KeyError s key s1 :
  pose_try (JObj snapshot)
           (mkState (world s) (trace s ++ [received user_id datetime]))
  = (Raise (KeyError key), s1) ->
  pose (Json (JObj snapshot)) s =
    (Return None,
     mkState (world s1)
       (trace s1 ++
          [Logged "ERROR"
             (format "Snapshot {} from user {} did not contain necessary pose data: {}"
                     [str_json datetime; str_json user_id;
                      str_exn (KeyError key)])])).
Proof.
  intros Htry. unfold pose.
  erewrite bind_Return by reflexivity.
  erewrite bind_Return by (apply log_received_found; eassumption).
  erewrite try_except_caught; [| apply Htry | reflexivity].
  unfold log_missing.
  repeat (erewrite bind_Return by (apply getitem_found; eassumption)).
  reflexivity.
Qed.

End Fields.

(** Closes the case where the field of [Hkey] is the first one missing
    from a [try] block of field reads. *)
Ltac first_present Hkey :=
  split; [cbn; auto 10 | split; [exact Hkey |]];
  intros s1;
  repeat (erewrite bind_Return by (apply getitem_found; eassumption));
  apply bind_Raise, getitem_missing, Hkey.

(** X2.  On a record that carries the correlation key and misses one of
    the seven pose fields, [pose] returns [None]; the world is left as it
    is, and after the debug line one error is logged, which names the
    correlation key and the first missing field in the order the fields
    are read (rotation x, y, z, w, then translation x, y, z). *)
Theorem pose_rejects_missing_pose_field
        (P : Platform) (snapshot : dict json) (s : State)
        (user_id datetime : json) (missing : string) :
  let fields :=
    ["pose_rotation_x"; "pose_rotation_y"; "pose_rotation_z"; "pose_rotation_w";
     "pose_translation_x"; "pose_translation_y"; "pose_translation_z"] in
  dict_get "user_id" snapshot = Some user_id ->
  dict_get "datetime" snapshot = Some datetime ->
  first_missing fields snapshot = Some missing ->
  In missing fields /\
  dict_get missing snapshot = None /\
  pose (Json (JObj snapshot)) s =
    (Return None,
     mkState (world s)
       (trace s ++
          [ received user_id datetime;
            Logged "ERROR"
              (format "Snapshot {} from user {} did not contain necessary pose data: {}"
                      [str_json datetime; str_json user_id;
                       str_exn (KeyError missing)]) ])).
Proof.
  intros fields Hu Hd Hfirst.
  assert (Htry : In missing fields /\
                 dict_get missing snapshot = None /\
                 forall s1, pose_try (JObj snapshot) s1
                            = (Raise (KeyError missing), s1)).
  { unfold first_missing, fields, dict_mem in Hfirst.
    cbn [find] in Hfirst. unfold pose_try, fields.
    destruct (dict_get "pose_rotation_x" snapshot) eqn:H1; cbn [negb] in Hfirst;
      [| injection Hfirst as <-; first_present H1].
    destruct (dict_get "pose_rotation_y" snapshot) eqn:H2; cbn [negb] in Hfirst;
      [| injection Hfirst as <-; first_present H2].
    destruct (dict_get "pose_rotation_z" snapshot) eqn:H3; cbn [negb] in Hfirst;
      [| injection Hfirst as <-; first_present H3].
    destruct (dict_get "pose_rotation_w" snapshot) eqn:H4; cbn [negb] in Hfirst;
      [| injection Hfirst as <-; first_present H4].
    destruct (dict_get "pose_translation_x" snapshot) eqn:H5; cbn [negb] in Hfirst;
      [| injection Hfirst as <-; first_present H5].
    destruct (dict_get "pose_translation_y" snapshot) eqn:H6; cbn [negb] in Hfirst;
      [| injection Hfirst as <-; first_present H6].
    destruct (dict_get "pose_translation_z" snapshot) eqn:H7; cbn [negb] in Hfirst;
      [| injection Hfirst as <-; first_present H7].
    discriminate Hfirst. }
  destruct Htry as (Hin & Hnone & Htry).
  split; [exact Hin | split; [exact Hnone |]].
  erewrite pose_catches_KeyError by (try eassumption; apply Htry).
  cbn [world trace]. now rewrite <- app_assoc.
Qed.

Lemma pose_rejects_missing_pose_field_witness :
  let snapshot :=
    [ ("user_id", JInt 42); ("datetime", JStr "2019-12-04_10-08-07");
      ("pose_rotation_x", JInt 1); ("pose_rotation_y", JInt 2);
      ("pose_rotation_w", JInt 4);
      ("pose_translation_x", JInt 5); ("pose_translation_z", JInt 7) ] in
  let fields :=
    ["pose_rotation_x"; "pose_rotation_y"; "pose_rotation_z"; "pose_rotation_w";
     "pose_translation_x"; "pose_translation_y"; "pose_translation_z"] in
  In "pose_rotation_z" fields /\
  dict_get "pose_rotation_z" snapshot = None /\
  @pose InMemory.platform (Json (JObj snapshot))
        (InMemory.start (InMemory.disk [] false)) =
    (Return None,
     @mkState InMemory.platform (InMemory.disk [] false)
       ([] ++
          [ @received InMemory.platform (JInt 42) (JStr "2019-12-04_10-08-07");
            Logged "ERROR"
              (format "Snapshot {} from user {} did not contain necessary pose data: {}"
                      ["2019-12-04_10-08-07"; "42";
                       str_exn (KeyError "pose_rotation_z")]) ])).
Proof.
  intros snapshot fields.
  apply (@pose_rejects_missing_pose_field
           InMemory.platform snapshot (InMemory.start (InMemory.disk [] false))
           (JInt 42) (JStr "2019-12-04_10-08-07") "pose_rotation_z").
  - reflexivity.
  - reflexivity.
  - reflexivity.
Defined.

(** X3.  On a record that carries the correlation key and the four
    feelings, [feelings] returns the record made of [user_id],
    [datetime], [happiness], [thirst], [hunger] and [exhaustion], each
    value unchanged; the world is left as it is and the debug line is the
    only event. *)
Theorem feelings_passes_four_values_through
        (P : Platform) (snapshot : dict json) (s : State)
        (user_id datetime happiness thirst hunger exhaustion : json) :
  dict_get "user_id" snapshot = Some user_id ->
  dict_get "datetime" snapshot = Some datetime ->
  dict_get "happiness" snapshot = Some happiness ->
  dict_get "thirst" snapshot = Some thirst ->
  dict_get "hunger" snapshot = Some hunger ->
  dict_get "exhaustion" snapshot = Some exhaustion ->
  feelings (Json (JObj snapshot)) s =
    (Return (Some (Json (JObj [ ("user_id", user_id); ("datetime", datetime);
                                ("happiness", happiness); ("thirst", thirst);
                                ("hunger", hunger);
                                ("exhaustion", exhaustion) ]))),
     mkState (world s) (trace s ++ [received user_id datetime])).
Proof.
  intros Hu Hd Hh Ht Hg Hx.
  unfold feelings.
  erewrite bind_Return by reflexivity.
  erewrite bind_Return by (apply log_received_found; eassumption).
  apply try_except_Return.
  unfold feelings_try.
  repeat (erewrite bind_Return by (apply getitem_found; eassumption)).
  reflexivity.
Qed.

Lemma feelings_passes_four_values_through_witness :
  @feelings InMemory.platform (Json (JObj InMemory.feelings_snapshot))
            (InMemory.start (InMemory.disk [] false)) =
    (Return (Some (Json (JObj [ ("user_id", JInt 42);
                                ("datetime", JStr "2019-12-04_10-08-07");
                                ("happiness", JInt 1); ("thirst", JInt 2);
                                ("hunger", JInt 3); ("exhaustion", JInt 4) ]))),
     @mkState InMemory.platform (InMemory.disk [] false)
       ([] ++ [@received InMemory.platform (JInt 42)
                          (JStr "2019-12-04_10-08-07")])).
Proof.
  apply (@feelings_passes_four_values_through
           InMemory.platform InMemory.feelings_snapshot
           (InMemory.start (InMemory.disk [] false))
           (JInt 42) (JStr "2019-12-04_10-08-07")
           (JInt 1) (JInt 2) (JInt 3) (JInt 4));
    reflexivity.
Defined.

(* ================================================================== *)
(** ** color_image and depth_image: the runs that go through *)

(** X4.  When the record carries the correlation key, the path and the
    dimensions, and reading the source, creating the directory, building
    the image and saving it all go through, [color_image] has made
    exactly these four calls, in this order, after the debug line; the
    image is saved at [PROCESSED_DIRECTORY/{user_id}_{datetime}_color.jpg],
    and the result carries the correlation key, that path, and the
    height and width of the input. *)
Theorem color_image_saves_and_reports
        (P : Platform) (snapshot : dict json) (s : State)
        (user_id datetime path width height : json)
        (image_bytes : bytes) (img : image) (w1 w2 w3 w4 : World) :
  dict_get "user_id" snapshot = Some user_id ->
  dict_get "datetime" snapshot = Some datetime ->
  dict_get "color_image_path" snapshot = Some path ->
  dict_get "color_image_width" snapshot = Some width ->
  dict_get "color_image_height" snapshot = Some height ->
  let final_path := color_path user_id datetime in
  perform (open_read path "rb") (world s) = (Return image_bytes, w1) ->
  perform (Path_mkdir PROCESSED_DIRECTORY) w1 = (Return tt, w2) ->
  perform (Image_frombytes "RGB" width height image_bytes) w2 = (Return img, w3) ->
  perform (Image_save img final_path) w3 = (Return tt, w4) ->
  color_image (Json (JObj snapshot)) s =
    (Return (Some (Json (JObj [ ("user_id", user_id); ("datetime", datetime);
                                ("color_image_path", JStr final_path);
                                ("height", height); ("width", width) ]))),
     mkState w4
       (trace s ++
          [ received user_id datetime;
            Called (open_read path "rb");
            Called (Path_mkdir PROCESSED_DIRECTORY);
            Called (Image_frombytes "RGB" width height image_bytes);
            Called (Image_save img final_path) ])).
Proof.
  intros Hu Hd Hp Hw Hh final_path Hread Hmk Hfb Hsave.
  unfold color_image.
  erewrite bind_Return by reflexivity.
  erewrite bind_Return by (apply log_received_found; eassumption).
  apply try_except_Return.
  unfold color_image_try.
  erewrite bind_Return by (apply getitem_found; eassumption).
  erewrite bind_Return by (apply invoke_Return; exact Hread).
  erewrite bind_Return by (apply invoke_Return; exact Hmk).
  repeat (erewrite bind_Return by (apply getitem_found; eassumption)).
  erewrite bind_Return by (apply invoke_Return; exact Hfb).
  erewrite bind_Return by (apply invoke_Return; exact Hsave).
  repeat (erewrite bind_Return by (apply getitem_found; eassumption)).
  unfold ret, json_dumps. cbn [world trace].
  now rewrite <- !app_assoc.
Qed.

Lemma color_image_saves_and_reports_witness :
  let final_path := "/cortex/files/processed/42_2019-12-04_10-08-07_color.jpg" in
  let w := InMemory.disk [] false in
  @color_image InMemory.platform (Json (JObj InMemory.color_snapshot))
               (InMemory.start w) =
    (Return (Some (Json (JObj [ ("user_id", JInt 42);
                                ("datetime", JStr "2019-12-04_10-08-07");
                                ("color_image_path", JStr final_path);
                                ("height", JInt 2); ("width", JInt 2) ]))),
     @mkState InMemory.platform
       (InMemory.mkfs (InMemory.files w ++ [(final_path, Raw "JFIF")]) false)
       ([] ++
          [ @received InMemory.platform (JInt 42) (JStr "2019-12-04_10-08-07");
            Called (open_read (JStr "/raw/color.bin") "rb");
            Called (Path_mkdir "/cortex/files/processed");
            Called (Image_frombytes "RGB" (JInt 2) (JInt 2) (Raw "RGBRGBRGBRGB"));
            Called (Image_save (Image 0) final_path) ])).
Proof.
  intros final_path w.
  apply (@color_image_saves_and_reports
           InMemory.platform InMemory.color_snapshot (InMemory.start w)
           (JInt 42) (JStr "2019-12-04_10-08-07") (JStr "/raw/color.bin")
           (JInt 2) (JInt 2) (Raw "RGBRGBRGBRGB") (Image 0) w w w);
    reflexivity.
Defined.

(** X5.  When the record carries the correlation key, the path and
    integer dimensions, the file decodes to an object whose [data] is a
    list, and reading, creating the directory, [imshow] and [savefig] all
    go through, [depth_image] has made exactly these four calls, in this
    order, after the debug line; the grid is rendered with the colour map
    [hot] and saved at
    [PROCESSED_DIRECTORY/{user_id}_{datetime}_depth.jpg], and the result
    carries the correlation key, the height and width of the input and
    that path. *)
Theorem depth_image_renders_and_reports
        (P : Platform) (snapshot file : dict json) (s : State)
        (user_id datetime path : json) (l : list json) (w h : Z)
        (w1 w2 w3 w4 : World) :
  dict_get "user_id" snapshot = Some user_id ->
  dict_get "datetime" snapshot = Some datetime ->
  dict_get "depth_image_path" snapshot = Some path ->
  dict_get "depth_image_width" snapshot = Some (JInt w) ->
  dict_get "depth_image_height" snapshot = Some (JInt h) ->
  let final_path := depth_path user_id datetime in
  perform (open_read path "r") (world s) = (Return (Json (JObj file)), w1) ->
  dict_get "data" file = Some (JArr l) ->
  perform (Path_mkdir PROCESSED_DIRECTORY) w1 = (Return tt, w2) ->
  perform (plt_imshow (map JArr (grid l w h)) "hot" "nearest") w2
  = (Return tt, w3) ->
  perform (plt_savefig final_path) w3 = (Return tt, w4) ->
  depth_image (Json (JObj snapshot)) s =
    (Return (Some (Json (JObj [ ("user_id", user_id); ("datetime", datetime);
                                ("height", JInt h); ("width", JInt w);
                                ("depth_image_path", JStr final_path) ]))),
     mkState w4
       (trace s ++
          [ received user_id datetime;
            Called (open_read path "r");
            Called (Path_mkdir PROCESSED_DIRECTORY);
            Called (plt_imshow (map JArr (grid l w h)) "hot" "nearest");
            Called (plt_savefig final_path) ])).
Proof.
  intros Hu Hd Hp Hw Hh final_path Hread Hdata Hmk Hshow Hsave.
  unfold depth_image.
  erewrite bind_Return by reflexivity.
  erewrite bind_Return by (apply log_received_found; eassumption).
  apply try_except_Return.
  erewrite depth_image_try_renders; try eassumption.
  erewrite bind_Return by (apply invoke_Return; exact Hshow).
  erewrite bind_Return by (apply invoke_Return; exact Hsave).
  unfold ret. cbn [world trace].
  now rewrite <- !app_assoc.
Qed.

Lemma depth_image_renders_and_reports_witness :
  let final_path := "/cortex/files/processed/42_2019-12-04_10-08-07_depth.jpg" in
  let w := InMemory.disk InMemory.six false in
  @depth_image InMemory.platform (Json (JObj InMemory.depth_snapshot))
               (InMemory.start w) =
    (Return (Some (Json (JObj [ ("user_id", JInt 42);
                                ("datetime", JStr "2019-12-04_10-08-07");
                                ("height", JInt 2); ("width", JInt 3);
                                ("depth_image_path", JStr final_path) ]))),
     @mkState InMemory.platform
       (InMemory.mkfs (InMemory.files w ++ [(final_path, Raw "JFIF")]) false)
       ([] ++
          [ @received InMemory.platform (JInt 42) (JStr "2019-12-04_10-08-07");
            Called (open_read (JStr "/raw/depth.json") "r");
            Called (Path_mkdir "/cortex/files/processed");
            Called (plt_imshow (map JArr (grid InMemory.six 3 2)) "hot" "nearest");
            Called (plt_savefig final_path) ])).
Proof.
  intros final_path w.
  apply (@depth_image_renders_and_reports
           InMemory.platform InMemory.depth_snapshot [("data", JArr InMemory.six)]
           (InMemory.start w)
           (JInt 42) (JStr "2019-12-04_10-08-07") (JStr "/raw/depth.json")
           InMemory.six 3 2 w w w);
    reflexivity.
Defined.

(* ================================================================== *)
(** ** color_image and depth_image: what the clauses catch and what
    they let through *)

Section Clauses.
Context {P : Platform}.
Local Open Scope py_scope.

Variable snapshot : dict json.
Variables user_id datetime : json.
Hypothesis Huser : dict_get "user_id" snapshot = Some user_id.
Hypothesis Hdate : dict_get "datetime" snapshot = Some datetime.

Let after_debug (s : State) : State :=
  mkState (world s) (trace s ++ [received user_id datetime]).

Lemma color_image_catches_KeyError s key s1 :
  color_image_try (JObj snapshot) (after_debug s) = (Raise (KeyError key), s1) ->
  color_image (Json (JObj snapshot)) s =
    (Return None,
     mkState (world s1) (trace s1 ++ [color_missing_error user_id datetime key])).
Proof.
  intros Htry. unfold color_image.
  erewrite bind_Return by reflexivity.
  erewrite bind_Return by (apply log_received_found; eassumption).
  erewrite try_except_caught; [| apply Htry | reflexivity].
  unfold log_missing.
  repeat (erewrite bind_Return by (apply getitem_found; eassumption)).
  reflexivity.
Qed.

Lemma depth_image_catches_KeyError s key s1 :
  depth_image_try (JObj snapshot) (after_debug s) = (Raise (KeyError key), s1) ->
  depth_image (Json (JObj snapshot)) s =
    (Return None,
     mkState (world s1) (trace s1 ++ [depth_missing_error user_id datetime key])).
Proof.
  intros Htry. unfold depth_image.
  erewrite bind_Return by reflexivity.
  erewrite bind_Return by (apply log_received_found; eassumption).
  erewrite try_except_caught; [| apply Htry | reflexivity].
  unfold log_missing.
  repeat (erewrite bind_Return by (apply getitem_found; eassumption)).
  reflexivity.
Qed.

Lemma color_image_lets_through s e s1 :
  has_clause e = false ->
  color_image_try (JObj snapshot) (after_debug s) = (Raise e, s1) ->
  color_image (Json (JObj snapshot)) s = (Raise e, s1).
Proof.
  intros He Htry. unfold color_image.
  erewrite bind_Return by reflexivity.
  erewrite bind_Return by (apply log_received_found; eassumption).
  apply try_except_passed; [exact Htry |].
  destruct e; try reflexivity; discriminate He.
Qed.

Lemma depth_image_lets_through s e s1 :
  has_clause e = false ->
  depth_image_try (JObj snapshot) (after_debug s) = (Raise e, s1) ->
  depth_image (Json (JObj snapshot)) s = (Raise e, s1).
Proof.
  intros He Htry. unfold depth_image.
  erewrite bind_Return by reflexivity.
  erewrite bind_Return by (apply log_received_found; eassumption).
  apply try_except_passed; [exact Htry |].
  destruct e; try reflexivity; discriminate He.
Qed.

End Clauses.

(** X6.  In [color_image], on a record carrying the correlation key, a
    [KeyError] raised anywhere in the [try] block, by a missing field or
    by a library call, is logged as missing color image data and turned
    into [None].  When [color_image_path] is missing nothing is read or
    written.  When a dimension is missing, the source has been read and
    the directory created by then, and no image is built or saved. *)
Theorem color_image_rejects_on_KeyError
        (P : Platform) (snapshot : dict json) (user_id datetime : json)
        (s : State) :
  dict_get "user_id" snapshot = Some user_id ->
  dict_get "datetime" snapshot = Some datetime ->
  (forall key s1,
      color_image_try (JObj snapshot)
        (mkState (world s) (trace s ++ [received user_id datetime]))
      = (Raise (KeyError key), s1) ->
      color_image (Json (JObj snapshot)) s =
        (Return None,
         mkState (world s1)
                 (trace s1 ++ [color_missing_error user_id datetime key])))
  /\
  (dict_get "color_image_path" snapshot = None ->
   color_image (Json (JObj snapshot)) s =
     (Return None,
      mkState (world s)
        (trace s ++ [ received user_id datetime;
                      color_missing_error user_id datetime "color_image_path" ])))
  /\
  (forall path image_bytes w1 w2 key,
      dict_get "color_image_path" snapshot = Some path ->
      perform (open_read path "rb") (world s) = (Return image_bytes, w1) ->
      perform (Path_mkdir PROCESSED_DIRECTORY) w1 = (Return tt, w2) ->
      (key = "color_image_width" /\ dict_get "color_image_width" snapshot = None
       \/
       key = "color_image_height" /\ dict_get "color_image_height" snapshot = None /\
       exists width, dict_get "color_image_width" snapshot = Some width) ->
      color_image (Json (JObj snapshot)) s =
        (Return None,
         mkState w2
           (trace s ++ [ received user_id datetime;
                         Called (open_read path "rb");
                         Called (Path_mkdir PROCESSED_DIRECTORY);
                         color_missing_error user_id datetime key ]))).
Proof.
  intros Hu Hd. split; [| split].
  - intros key s1. apply color_image_catches_KeyError; assumption.
  - intros Hp.
    erewrite color_image_catches_KeyError; try eassumption.
    2:{ unfold color_image_try. apply bind_Raise, getitem_missing, Hp. }
    cbn [world trace]. now rewrite <- app_assoc.
  - intros path image_bytes w1 w2 key Hp Hread Hmk Hkey.
    erewrite color_image_catches_KeyError with (key := key); try eassumption.
    2:{ unfold color_image_try.
        erewrite bind_Return by (apply getitem_found; eassumption).
        erewrite bind_Return by (apply invoke_Return; exact Hread).
        erewrite bind_Return by (apply invoke_Return; exact Hmk).
        erewrite bind_Return by (apply getitem_found; eassumption).
        erewrite bind_Return by (apply getitem_found; eassumption).
        destruct Hkey as [[-> Hw] | (-> & Hh & width & Hw)].
        - apply bind_Raise, getitem_missing, Hw.
        - erewrite bind_Return by (apply getitem_found; eassumption).
          apply bind_Raise, getitem_missing, Hh. }
    cbn [world trace]. now rewrite <- !app_assoc.
Qed.

Lemma color_image_rejects_on_KeyError_witness :
  let snapshot :=
    [ ("user_id", JInt 42); ("datetime", JStr "2019-12-04_10-08-07");
      ("color_image_path", JStr "/raw/color.bin");
      ("color_image_width", JInt 2) ] in
  let w := InMemory.disk [] false in
  @color_image InMemory.platform (Json (JObj snapshot)) (InMemory.start w) =
    (Return None,
     @mkState InMemory.platform w
       ([] ++
          [ @received InMemory.platform (JInt 42) (JStr "2019-12-04_10-08-07");
            Called (open_read (JStr "/raw/color.bin") "rb");
            Called (Path_mkdir "/cortex/files/processed");
            @color_missing_error InMemory.platform (JInt 42)
              (JStr "2019-12-04_10-08-07") "color_image_height" ])).
Proof.
  intros snapshot w.
  destruct (@color_image_rejects_on_KeyError
              InMemory.platform snapshot (JInt 42) (JStr "2019-12-04_10-08-07")
              (InMemory.start w) eq_refl eq_refl)
    as (_ & _ & Hdim).
  apply (Hdim (JStr "/raw/color.bin") (Raw "RGBRGBRGBRGB") w w
              "color_image_height" eq_refl eq_refl eq_refl).
  right. split; [reflexivity |]. split; [reflexivity |].
  exists (JInt 2). reflexivity.
Defined.

(** X7.  In [depth_image], on a record carrying the correlation key, a
    [KeyError] raised anywhere in the [try] block is logged as missing
    depth image data and turned into [None].  When [depth_image_path] is
    missing nothing is read.  When the file decodes to an object without
    the key [data], or when a dimension is missing from the record, the
    file has been read by then and nothing is rendered or written. *)
Theorem depth_image_rejects_on_KeyError
        (P : Platform) (snapshot : dict json) (user_id datetime : json)
        (s : State) :
  dict_get "user_id" snapshot = Some user_id ->
  dict_get "datetime" snapshot = Some datetime ->
  (forall key s1,
      depth_image_try (JObj snapshot)
        (mkState (world s) (trace s ++ [received user_id datetime]))
      = (Raise (KeyError key), s1) ->
      depth_image (Json (JObj snapshot)) s =
        (Return None,
         mkState (world s1)
                 (trace s1 ++ [depth_missing_error user_id datetime key])))
  /\
  (dict_get "depth_image_path" snapshot = None ->
   depth_image (Json (JObj snapshot)) s =
     (Return None,
      mkState (world s)
        (trace s ++ [ received user_id datetime;
                      depth_missing_error user_id datetime "depth_image_path" ])))
  /\
  (forall path file w1,
      dict_get "depth_image_path" snapshot = Some path ->
      perform (open_read path "r") (world s) = (Return (Json (JObj file)), w1) ->
      dict_get "data" file = None ->
      depth_image (Json (JObj snapshot)) s =
        (Return None,
         mkState w1
           (trace s ++ [ received user_id datetime;
                         Called (open_read path "r");
                         depth_missing_error user_id datetime "data" ])))
  /\
  (forall path file image_array w1 key,
      dict_get "depth_image_path" snapshot = Some path ->
      perform (open_read path "r") (world s) = (Return (Json (JObj file)), w1) ->
      dict_get "data" file = Some image_array ->
      (key = "depth_image_width" /\ dict_get "depth_image_width" snapshot = None
       \/
       key = "depth_image_height" /\ dict_get "depth_image_height" snapshot = None /\
       exists width, dict_get "depth_image_width" snapshot = Some width) ->
      depth_image (Json (JObj snapshot)) s =
        (Return None,
         mkState w1
           (trace s ++ [ received user_id datetime;
                         Called (open_read path "r");
                         depth_missing_error user_id datetime key ]))).
Proof.
  intros Hu Hd. split; [| split; [| split]].
  - intros key s1. apply depth_image_catches_KeyError; assumption.
  - intros Hp.
    erewrite depth_image_catches_KeyError; try eassumption.
    2:{ unfold depth_image_try. apply bind_Raise, getitem_missing, Hp. }
    cbn [world trace]. now rewrite <- app_assoc.
  - intros path file w1 Hp Hread Hdata.
    erewrite depth_image_catches_KeyError; try eassumption.
    2:{ unfold depth_image_try.
        erewrite bind_Return by (apply getitem_found; eassumption).
        erewrite bind_Return by (apply invoke_Return; exact Hread).
        erewrite bind_Return by reflexivity.
        apply bind_Raise, getitem_missing, Hdata. }
    cbn [world trace]. now rewrite <- !app_assoc.
  - intros path file image_array w1 key Hp Hread Hdata Hkey.
    erewrite depth_image_catches_KeyError with (key := key); try eassumption.
    2:{ unfold depth_image_try.
        erewrite bind_Return by (apply getitem_found; eassumption).
        erewrite bind_Return by (apply invoke_Return; exact Hread).
        erewrite bind_Return by reflexivity.
        erewrite bind_Return by (apply getitem_found; eassumption).
        erewrite bind_Return by (apply getitem_found; eassumption).
        erewrite bind_Return by (apply getitem_found; eassumption).
        destruct Hkey as [[-> Hw] | (-> & Hh & width & Hw)].
        - apply bind_Raise, getitem_missing, Hw.
        - erewrite bind_Return by (apply getitem_found; eassumption).
          apply bind_Raise, getitem_missing, Hh. }
    cbn [world trace]. now rewrite <- !app_assoc.
Qed.

Lemma depth_image_rejects_on_KeyError_witness :
  let w := InMemory.mkfs [("/raw/depth.json", Json (JObj [("rows", JArr [])]))]
                         false in
  @depth_image InMemory.platform (Json (JObj InMemory.depth_snapshot))
               (InMemory.start w) =
    (Return None,
     @mkState InMemory.platform w
       ([] ++
          [ @received InMemory.platform (JInt 42) (JStr "2019-12-04_10-08-07");
            Called (open_read (JStr "/raw/depth.json") "r");
            @depth_missing_error InMemory.platform (JInt 42)
              (JStr "2019-12-04_10-08-07") "data" ])).
Proof.
  intros w.
  destruct (@depth_image_rejects_on_KeyError
              InMemory.platform InMemory.depth_snapshot
              (JInt 42) (JStr "2019-12-04_10-08-07")
              (InMemory.start w) eq_refl eq_refl)
    as (_ & _ & Hdata & _).
  exact (Hdata (JStr "/raw/depth.json") [("rows", JArr [])] w
               eq_refl eq_refl eq_refl).
Defined.

(** X8.  In [color_image] and [depth_image], on a record carrying the
    correlation key, an exception of the [try] block that is neither a
    [KeyError] nor an [OSError] leaves the transform as it is, with no
    error logged.  So [depth_image] raises [JSONDecodeError] when the
    file it read does not decode, and [color_image] lets through what
    [Image.frombytes] raises, a [ValueError] for instance. *)
Theorem other_exceptions_leave_image_transforms
        (P : Platform) (snapshot : dict json) (user_id datetime : json)
        (s : State) :
  dict_get "user_id" snapshot = Some user_id ->
  dict_get "datetime" snapshot = Some datetime ->
  let s0 := mkState (world s) (trace s ++ [received user_id datetime]) in
  (forall e s1,
      has_clause e = false ->
      color_image_try (JObj snapshot) s0 = (Raise e, s1) ->
      color_image (Json (JObj snapshot)) s = (Raise e, s1))
  /\
  (forall e s1,
      has_clause e = false ->
      depth_image_try (JObj snapshot) s0 = (Raise e, s1) ->
      depth_image (Json (JObj snapshot)) s = (Raise e, s1))
  /\
  (forall path text w1,
      dict_get "depth_image_path" snapshot = Some path ->
      perform (open_read path "r") (world s) = (Return (Raw text), w1) ->
      depth_image (Json (JObj snapshot)) s =
        (Raise (JSONDecodeError (loads_message text)),
         mkState w1 (trace s ++ [ received user_id datetime;
                                  Called (open_read path "r") ])))
  /\
  (forall path width height image_bytes msg w1 w2 w3,
      dict_get "color_image_path" snapshot = Some path ->
      dict_get "color_image_width" snapshot = Some width ->
      dict_get "color_image_height" snapshot = Some height ->
      perform (open_read path "rb") (world s) = (Return image_bytes, w1) ->
      perform (Path_mkdir PROCESSED_DIRECTORY) w1 = (Return tt, w2) ->
      perform (Image_frombytes "RGB" width height image_bytes) w2
      = (Raise (ValueError msg), w3) ->
      color_image (Json (JObj snapshot)) s =
        (Raise (ValueError msg),
         mkState w3
           (trace s ++ [ received user_id datetime;
                         Called (open_read path "rb");
                         Called (Path_mkdir PROCESSED_DIRECTORY);
                         Called (Image_frombytes "RGB" width height
                                                 image_bytes) ]))).
Proof.
  intros Hu Hd s0. split; [| split; [| split]].
  - intros e s1. apply color_image_lets_through; assumption.
  - intros e s1. apply depth_image_lets_through; assumption.
  - intros path text w1 Hp Hread.
    assert (Htry : depth_image_try (JObj snapshot) s0 =
                     (Raise (JSONDecodeError (loads_message text)),
                      mkState w1 (trace s0 ++ [Called (open_read path "r")]))).
    { unfold depth_image_try.
      erewrite bind_Return by (apply getitem_found; eassumption).
      erewrite bind_Return by (apply invoke_Return; exact Hread).
      apply bind_Raise. reflexivity. }
    rewrite (@depth_image_lets_through P snapshot user_id datetime Hu Hd s
               (JSONDecodeError (loads_message text)) _ eq_refl Htry).
    subst s0. cbn [world trace]. now rewrite <- !app_assoc.
  - intros path width height image_bytes msg w1 w2 w3 Hp Hw Hh Hread Hmk Hfb.
    assert (Htry : color_image_try (JObj snapshot) s0 =
                     (Raise (ValueError msg),
                      mkState w3
                        (((trace s0 ++ [Called (open_read path "rb")])
                            ++ [Called (Path_mkdir PROCESSED_DIRECTORY)])
                           ++ [Called (Image_frombytes "RGB" width height
                                                       image_bytes)]))).
    { unfold color_image_try.
      erewrite bind_Return by (apply getitem_found; eassumption).
      erewrite bind_Return by (apply invoke_Return; exact Hread).
      erewrite bind_Return by (apply invoke_Return; exact Hmk).
      repeat (erewrite bind_Return by (apply getitem_found; eassumption)).
      apply bind_Raise, invoke_Raise. exact Hfb. }
    rewrite (@color_image_lets_through P snapshot user_id datetime Hu Hd s
               (ValueError msg) _ eq_refl Htry).
    subst s0. cbn [world trace]. now rewrite <- !app_assoc.
Qed.

Lemma other_exceptions_leave_image_transforms_witness :
  let w := InMemory.mkfs [("/raw/depth.json", Raw "{data: ")] false in
  @depth_image InMemory.platform (Json (JObj InMemory.depth_snapshot))
               (InMemory.start w) =
    (Raise (JSONDecodeError "Expecting value"),
     @mkState InMemory.platform w
       ([] ++
          [ @received InMemory.platform (JInt 42) (JStr "2019-12-04_10-08-07");
            Called (open_read (JStr "/raw/depth.json") "r") ])).
Proof.
  intros w.
  destruct (@other_exceptions_leave_image_transforms
              InMemory.platform InMemory.depth_snapshot
              (JInt 42) (JStr "2019-12-04_10-08-07")
              (InMemory.start w) eq_refl eq_refl)
    as (_ & _ & Hfile & _).
  exact (Hfile (JStr "/raw/depth.json") "{data: " w eq_refl eq_refl).
Defined.

(* ================================================================== *)
(** ** depth_image: dimensions at the edges *)

Section Dimensions.
Context {P : Platform}.
Local Open Scope py_scope.

(** The grid is what the renderer is called with, whatever happens next. *)
Lemma depth_image_shows_grid (snapshot file : dict json) (s : State)
      (user_id datetime path : json) (l : list json) (w h : Z) (w1 w2 : World) :
  dict_get "user_id" snapshot = Some user_id ->
  dict_get "datetime" snapshot = Some datetime ->
  dict_get "depth_image_path" snapshot = Some path ->
  dict_get "depth_image_width" snapshot = Some (JInt w) ->
  dict_get "depth_image_height" snapshot = Some (JInt h) ->
  perform (open_read path "r") (world s) = (Return (Json (JObj file)), w1) ->
  dict_get "data" file = Some (JArr l) ->
  perform (Path_mkdir PROCESSED_DIRECTORY) w1 = (Return tt, w2) ->
  In (Called (plt_imshow (map JArr (grid l w h)) "hot" "nearest"))
     (trace (snd (depth_image (Json (JObj snapshot)) s))).
Proof.
  intros Hu Hd Hp Hw Hh Hread Hdata Hmk.
  unfold depth_image.
  erewrite bind_Return by reflexivity.
  erewrite bind_Return by (apply log_received_found; eassumption).
  erewrite try_except_ext
    by (eapply depth_image_try_renders; cbn [world]; eassumption).
  apply try_except_invoke_In.
  - intros []. appends_tac; exact I.
  - intros e h0 Hh0. destruct e; try discriminate Hh0; injection Hh0 as <-;
      unfold log_missing; appends_tac;
      first [exact I | rewrite ?Hu, ?Hd; apply appends_ret].
Qed.

Lemma slice_list_to_minus_one A (l : list A) : slice_list l 0 (-1) = removelast l.
Proof.
  unfold slice_list. rewrite removelast_firstn_len.
  change (0 <? 0) with false. change (-1 <? 0) with true. cbv iota.
  rewrite (Z.min_l 0) by lia. cbn [Z.to_nat skipn].
  f_equal. lia.
Qed.

Lemma grid_width_zero l h :
  grid l 0 h = repeat (removelast l) (Z.to_nat h).
Proof.
  assert (Hall : forall idx : list Z,
             map (fun i => slice_list l (i * 0) (i * 0 + (0 - 1))) idx
             = repeat (removelast l) (List.length idx)).
  { induction idx as [| i idx IH]; [reflexivity |].
    cbn [map List.length repeat]. rewrite IH. f_equal.
    rewrite Z.mul_0_r. apply slice_list_to_minus_one. }
  unfold grid. rewrite Hall. now rewrite length_map, length_seq.
Qed.

End Dimensions.

(** X9.  [depth_image] with a dimension that is not an integer: after
    the file has been read, a height that is neither [int] nor [bool]
    makes [range] raise [TypeError], and with a height of at least 1 a
    width that is neither [int] nor [bool] makes the first slice raise
    [TypeError].  Neither clause catches it: it leaves the transform
    before the directory is created or anything is rendered, and no
    error is logged. *)
Theorem depth_image_raises_on_non_integer_dimension
        (P : Platform) (snapshot file : dict json) (s : State)
        (user_id datetime path image_array width height : json) (w1 : World) :
  dict_get "user_id" snapshot = Some user_id ->
  dict_get "datetime" snapshot = Some datetime ->
  dict_get "depth_image_path" snapshot = Some path ->
  dict_get "depth_image_width" snapshot = Some width ->
  dict_get "depth_image_height" snapshot = Some height ->
  perform (open_read path "r") (world s) = (Return (Json (JObj file)), w1) ->
  dict_get "data" file = Some image_array ->
  as_index height = None \/
  (as_index width = None /\ exists h, as_index height = Some h /\ 1 <= h) ->
  exists msg,
    depth_image (Json (JObj snapshot)) s =
      (Raise (TypeError msg),
       mkState w1 (trace s ++ [ received user_id datetime;
                                Called (open_read path "r") ])).
Proof.
  intros Hu Hd Hp Hw Hh Hread Hdata Hbad.
  assert (Htry : exists msg,
             depth_image_try (JObj snapshot)
               (mkState (world s) (trace s ++ [received user_id datetime]))
             = (Raise (TypeError msg),
                mkState w1 ((trace s ++ [received user_id datetime])
                              ++ [Called (open_read path "r")]))).
  { unfold depth_image_try.
    destruct Hbad as [Hheight | (Hwidth & h & Hheight & Hh1)].
    - eexists.
      erewrite bind_Return by (apply getitem_found; eassumption).
      erewrite bind_Return by (apply invoke_Return; exact Hread).
      erewrite bind_Return by reflexivity.
      repeat (erewrite bind_Return by (apply getitem_found; eassumption)).
      apply bind_Raise. unfold py_range. rewrite Hheight. reflexivity.
    - eexists.
      erewrite bind_Return by (apply getitem_found; eassumption).
      erewrite bind_Return by (apply invoke_Return; exact Hread).
      erewrite bind_Return by reflexivity.
      repeat (erewrite bind_Return by (apply getitem_found; eassumption)).
      erewrite bind_Return by (unfold py_range; rewrite Hheight; reflexivity).
      apply bind_Raise.
      destruct (Z.to_nat h) as [| n] eqn:Hn; [lia |].
      cbn [seq map for_append].
      apply bind_Raise. unfold depth_row. rewrite Hwidth. reflexivity. }
  destruct Htry as (msg & Htry). exists msg.
  rewrite (@depth_image_lets_through P snapshot user_id datetime Hu Hd s
             (TypeError msg) _ eq_refl Htry).
  cbn [world trace]. now rewrite <- !app_assoc.
Qed.

Lemma depth_image_raises_on_non_integer_dimension_witness :
  let snapshot :=
    [ ("user_id", JInt 42); ("datetime", JStr "2019-12-04_10-08-07");
      ("depth_image_path", JStr "/raw/depth.json");
      ("depth_image_width", JStr "3"); ("depth_image_height", JInt 2) ] in
  let w := InMemory.disk InMemory.six false in
  exists msg,
    @depth_image InMemory.platform (Json (JObj snapshot)) (InMemory.start w) =
      (Raise (TypeError msg),
       @mkState InMemory.platform w
         ([] ++
            [ @received InMemory.platform (JInt 42) (JStr "2019-12-04_10-08-07");
              Called (open_read (JStr "/raw/depth.json") "r") ])).
Proof.
  intros snapshot w.
  apply (@depth_image_raises_on_non_integer_dimension
           InMemory.platform snapshot [("data", JArr InMemory.six)]
           (InMemory.start w)
           (JInt 42) (JStr "2019-12-04_10-08-07") (JStr "/raw/depth.json")
           (JArr InMemory.six) (JStr "3") (JInt 2) w);
    try reflexivity.
  right. split; [reflexivity |]. exists 2. split; [reflexivity | lia].
Defined.

(** X10.  [depth_image] with width 0: each slice is [l[0:-1]], so the
    renderer is handed [height] rows that are each the whole array
    without its last element. *)
Theorem depth_image_width_zero_rows_drop_last_element
        (P : Platform) (snapshot file : dict json) (s : State)
        (user_id datetime path : json) (l : list json) (h : Z)
        (w1 w2 : World) :
  dict_get "user_id" snapshot = Some user_id ->
  dict_get "datetime" snapshot = Some datetime ->
  dict_get "depth_image_path" snapshot = Some path ->
  dict_get "depth_image_width" snapshot = Some (JInt 0) ->
  dict_get "depth_image_height" snapshot = Some (JInt h) ->
  perform (open_read path "r") (world s) = (Return (Json (JObj file)), w1) ->
  dict_get "data" file = Some (JArr l) ->
  perform (Path_mkdir PROCESSED_DIRECTORY) w1 = (Return tt, w2) ->
  In (Called (plt_imshow (repeat (JArr (removelast l)) (Z.to_nat h))
                         "hot" "nearest"))
     (trace (snd (depth_image (Json (JObj snapshot)) s))).
Proof.
  intros Hu Hd Hp Hw Hh Hread Hdata Hmk.
  pose proof (@depth_image_shows_grid P snapshot file s user_id datetime path
                l 0 h w1 w2 Hu Hd Hp Hw Hh Hread Hdata Hmk) as Hshow.
  rewrite grid_width_zero, map_repeat in Hshow. exact Hshow.
Qed.

Lemma depth_image_width_zero_rows_drop_last_element_witness :
  let snapshot :=
    [ ("user_id", JInt 42); ("datetime", JStr "2019-12-04_10-08-07");
      ("depth_image_path", JStr "/raw/depth.json");
      ("depth_image_width", JInt 0); ("depth_image_height", JInt 2) ] in
  let w := InMemory.disk [JInt 10; JInt 11; JInt 12] false in
  In (Called (plt_imshow
                (repeat (JArr (removelast [JInt 10; JInt 11; JInt 12]))
                        (Z.to_nat 2))
                "hot" "nearest"))
     (trace (snd (@depth_image InMemory.platform (Json (JObj snapshot))
                               (InMemory.start w)))).
Proof.
  intros snapshot w.
  apply (@depth_image_width_zero_rows_drop_last_element
           InMemory.platform snapshot [("data", JArr [JInt 10; JInt 11; JInt 12])]
           (InMemory.start w)
           (JInt 42) (JStr "2019-12-04_10-08-07") (JStr "/raw/depth.json")
           [JInt 10; JInt 11; JInt 12] 2 w w);
    reflexivity.
Defined.

(* ================================================================== *)
(** ** The transforms and the broker *)

(** X11.  A registered transform never calls the broker: on any body,
    in any state and whatever the platform answers, what its run adds to
    the trace are log lines and calls to [open], [mkdir], PIL and
    matplotlib, and what was in the trace before stays in it. *)
Theorem transforms_never_call_the_broker
        (P : Platform) (name : string) (f : function) (data : bytes) (s : State) :
  dict_get name PARSERS = Some f ->
  exists evs,
    trace (snd (__call__ f data s)) = trace s ++ evs /\
    Forall transform_event evs.
Proof.
  intros Hf. exact (@appends_registered P name f data Hf s).
Qed.

Lemma transforms_never_call_the_broker_witness :
  exists evs,
    trace (snd (@color_image InMemory.platform
                  (Json (JObj InMemory.color_snapshot))
                  (InMemory.start (InMemory.disk [] true))))
    = [] ++ evs /\
    Forall transform_event evs.
Proof.
  apply (@transforms_never_call_the_broker
           InMemory.platform "color_image" (def "color_image" color_image)
           (Json (JObj InMemory.color_snapshot))
           (InMemory.start (InMemory.disk [] true))).
  reflexivity.
Defined.

(* ================================================================== *)
(** ** The registry: new names, unique names, dispatch *)

Section RegistryLaws.
Variable V : Type.

Lemma dict_mem_In k (d : dict V) : dict_mem k d = true <-> In k (dict_keys d).
Proof.
  unfold dict_mem, dict_keys.
  induction d as [| [k' v'] d IH]; cbn.
  - split; [discriminate | contradiction].
  - destruct (String.eqb_spec k k') as [-> | Hne].
    + split; auto.
    + rewrite IH. split; [auto |]. intros [Heq | Hin]; [congruence | exact Hin].
Qed.

Lemma dict_mem_not_In k (d : dict V) :
  dict_mem k d = false <-> ~ In k (dict_keys d).
Proof.
  rewrite <- dict_mem_In. destruct (dict_mem k d); split; congruence.
Qed.

Lemma dict_set_NoDup k (v : V) d :
  NoDup (dict_keys d) -> NoDup (dict_keys (dict_set k v d)).
Proof.
  intros Hnd. destruct (dict_mem k d) eqn:Hmem.
  - now rewrite dict_keys_set_present.
  - rewrite dict_keys_set_absent by exact Hmem.
    apply NoDup_app; [exact Hnd | repeat constructor; auto |].
    intros x Hx [<- | []]. apply dict_mem_not_In in Hmem. contradiction.
Qed.

Lemma dict_get_absent k (d : dict V) : dict_mem k d = false -> dict_get k d = None.
Proof. unfold dict_mem. destruct (dict_get k d); [discriminate | reflexivity]. Qed.

End RegistryLaws.

(** X12.  Registering a function under a name the registry does not
    hold adds that name after the others and binds it to the function;
    the names already there keep their place and their transforms, and
    dispatching to the new name runs the function. *)
Theorem parser_registers_new_name_last
        (P : Platform) (func : function) (parsers_dict : dict function) :
  dict_mem (__name__ func) parsers_dict = false ->
  let registry := fst (parser func parsers_dict) in
  dict_keys registry = dict_keys parsers_dict ++ [__name__ func] /\
  dict_get (__name__ func) registry = Some func /\
  (forall name, name <> __name__ func ->
                dict_get name registry = dict_get name parsers_dict) /\
  (forall data s,
      run_parser registry (__name__ func) data s = __call__ func data s).
Proof.
  intros Hmem registry. unfold registry, parser. cbn [fst].
  split; [apply dict_keys_set_absent, Hmem |].
  split; [apply dict_get_set_same |].
  split; [intros name Hne; apply dict_get_set_other, Hne |].
  intros data s. unfold run_parser. now rewrite dict_get_set_same.
Qed.

Lemma parser_registers_new_name_last_witness :
  let func := @def InMemory.platform "thirst" feelings in
  let registry := fst (parser func PARSERS) in
  dict_keys registry
  = dict_keys (@PARSERS InMemory.platform) ++ ["thirst"] /\
  dict_get "thirst" registry = Some func /\
  (forall name, name <> "thirst" ->
                dict_get name registry = dict_get name PARSERS) /\
  (forall data s, run_parser registry "thirst" data s = feelings data s).
Proof.
  intros func.
  apply (@parser_registers_new_name_last InMemory.platform func PARSERS).
  reflexivity.
Defined.

(** X13.  Whatever the registry and the function, after registration a
    lookup of the function's name gives the function, and a registry
    whose names were pairwise distinct still has pairwise distinct names:
    the decorator never makes a second entry for a name. *)
Theorem parser_keeps_names_unique
        (P : Platform) (func : function) (parsers_dict : dict function) :
  NoDup (dict_keys parsers_dict) ->
  NoDup (dict_keys (fst (parser func parsers_dict))) /\
  dict_get (__name__ func) (fst (parser func parsers_dict)) = Some func.
Proof.
  intros Hnd. unfold parser. cbn [fst].
  split; [apply dict_set_NoDup, Hnd | apply dict_get_set_same].
Qed.

Lemma parser_keeps_names_unique_witness :
  let func := @def InMemory.platform "pose" feelings in
  NoDup (dict_keys (fst (parser func PARSERS))) /\
  dict_get "pose" (fst (parser func PARSERS)) = Some func.
Proof.
  intros func.
  apply (@parser_keeps_names_unique InMemory.platform func PARSERS).
  repeat constructor; cbn; intuition discriminate.
Defined.

(** X14.  Once the module is imported, the registry holds the names
    [pose], [color_image], [depth_image] and [feelings], in this order
    and each once; [run_parser] on one of them runs the function of that
    name, and on any other name it raises [KeyError] for the name
    without running anything. *)
Theorem PARSERS_dispatches_by_name (P : Platform) :
  dict_keys PARSERS = ["pose"; "color_image"; "depth_image"; "feelings"] /\
  NoDup (dict_keys PARSERS) /\
  (forall data s,
      run_parser PARSERS "pose" data s = pose data s /\
      run_parser PARSERS "color_image" data s = color_image data s /\
      run_parser PARSERS "depth_image" data s = depth_image data s /\
      run_parser PARSERS "feelings" data s = feelings data s) /\
  (forall name data s,
      ~ In name (dict_keys PARSERS) ->
      run_parser PARSERS name data s = (Raise (KeyError name), s)).
Proof.
  split; [reflexivity |].
  split; [repeat constructor; cbn; intuition discriminate |].
  split; [intros data s; repeat split |].
  intros name data s Hnot.
  unfold run_parser.
  rewrite dict_get_absent; [reflexivity |].
  apply dict_mem_not_In, Hnot.
Qed.

Lemma PARSERS_dispatches_by_name_witness :
  let s := InMemory.start (InMemory.disk [] false) in
  let data := Json (JObj InMemory.pose_snapshot) in
  @run_parser InMemory.platform PARSERS "nosuch" data s
  = (Raise (KeyError "nosuch"), s).
Proof.
  intros s data.
  destruct (@PARSERS_dispatches_by_name InMemory.platform)
    as (_ & _ & _ & Hunknown).
  apply Hunknown. cbn. intuition discriminate.
Defined.

(* ================================================================== *)
(** ** The service loop: broker errors, order of deliveries, topology *)

Section Loop.
Context {P : Platform}.
Local Open Scope py_scope.

Lemma exit_run_exits A s :
  @exit_run P A s = (Raise exit_exn, mkState (world s) (trace s ++ [exit_notice])).
Proof.
  unfold exit_run, exit_exn.
  erewrite bind_Return by reflexivity.
  unfold sys_exit. destruct sys_imported; reflexivity.
Qed.

Lemma exit_status_exit_exn A : exit_status (@Raise A exit_exn) = 1.
Proof. unfold exit_exn. destruct sys_imported; reflexivity. Qed.



Lemma invoke_inv X (c : call X) s a s' :
  invoke c s = (Return a, s') ->
  exists w, perform c (world s) = (Return a, w) /\
            s' = mkState w (trace s ++ [Called c]).
Proof.
  unfold invoke. destruct (perform c (world s)) as [r w].
  intros [= -> <-]. eauto.
Qed.

Lemma print_inv line s (u : unit) s' :
  print line s = (Return u, s') ->
  s' = mkState (world s) (trace s ++ [Printed line]).
Proof. unfold print, emit. now intros [= _ <-]. Qed.

End Loop.

(** X15.  In [run_parser_service], an error of the broker (an
    [AMQPError]) raised while connecting and binding, or later out of
    [start_consuming], is caught: the error is logged, the notice is
    printed, and [sys.exit(1)] ends the process with status 1.  There is
    no reconnection and no further delivery is consumed. *)
Theorem broker_error_ends_service_with_status_1
        (P : Platform) (globals_PARSERS : dict function)
        (parser_name : string) (message_queue : json)
        (deliveries : list bytes) (s : State) (msg : string) :
  let reported s1 :=
    mkState (world s1)
      (trace s1 ++ [ Logged "ERROR"
                       (format "Error in run_parser_service: {}" [msg]);
                     exit_notice ]) in
  (forall s1,
      service_bind parser_name message_queue s = (Raise (AMQPError msg), s1) ->
      run_parser_service globals_PARSERS parser_name message_queue deliveries s
      = (Raise exit_exn, reported s1))
  /\
  (forall conn ch s1 s2,
      service_bind parser_name message_queue s = (Return (conn, ch), s1) ->
      start_consuming ch (parser_callback globals_PARSERS parser_name conn)
                      deliveries s1
      = (Raise (AMQPError msg), s2) ->
      run_parser_service globals_PARSERS parser_name message_queue deliveries s
      = (Raise exit_exn, reported s2))
  /\
  exit_status (@Raise unit exit_exn) = 1.
Proof.
  intros reported. split; [| split; [| apply exit_status_exit_exn]].
  - intros s1 Hbind. unfold run_parser_service.
    erewrite try_except_caught;
      [| apply bind_Raise; exact Hbind | reflexivity].
    erewrite bind_Return by reflexivity.
    rewrite exit_run_exits. unfold reported. cbn [world trace].
    now rewrite <- app_assoc.
  - intros conn ch s1 s2 Hbind Hloop. unfold run_parser_service.
    erewrite try_except_caught;
      [| erewrite bind_Return by exact Hbind; exact Hloop | reflexivity].
    erewrite bind_Return by reflexivity.
    rewrite exit_run_exits. unfold reported. cbn [world trace].
    now rewrite <- app_assoc.
Qed.

Lemma broker_error_ends_service_with_status_1_witness :
  let w := InMemory.disk [] false in
  exists s2,
    @run_parser_service InMemory.platform PARSERS "pose" (JStr "127.0.0.1") []
                        (InMemory.start w)
    = (Raise (SystemExit 1),
       @mkState InMemory.platform (world s2)
         (trace s2 ++ [ Logged "ERROR"
                          (format "Error in run_parser_service: {}"
                                  ["connection closed"]);
                        @exit_notice ])).
Proof.
  intros w.
  destruct (@broker_error_ends_service_with_status_1
              InMemory.platform PARSERS "pose" (JStr "127.0.0.1") []
              (InMemory.start w) "connection closed")
    as (_ & Hloop & _).
  eexists.
  eapply (Hloop (Connection 0) (Channel 0)); reflexivity.
Defined.



(** X18.  When [run_parser_service] gets as far as consuming, it has
    printed the broker address, opened one connection and one channel on
    it, declared the direct exchange [snapshot], declared an exclusive
    queue named after the parser, bound that queue to the exchange under
    the routing key [snapshot], registered its consumer on that queue
    with automatic acknowledgement, and printed that it starts to
    consume: these events, in this order, and nothing else. *)
Theorem service_bind_declares_topology
        (P : Platform) (parser_name : string) (message_queue : json)
        (conn : connection) (ch : channel) (s s1 : State) :
  service_bind parser_name message_queue s = (Return (conn, ch), s1) ->
  trace s1 =
    trace s ++
      [ Printed (str_json message_queue);
        Called (BlockingConnection message_queue);
        Called (connection_channel conn);
        Called (exchange_declare ch "snapshot" "direct");
        Called (queue_declare ch parser_name true);
        Called (queue_bind ch "snapshot" parser_name "snapshot");
        Called (basic_consume ch parser_name true);
        Printed (format "{}: Starting to consume" [parser_name]) ].
Proof.
  unfold service_bind, EXCHANGE_NAME. intros H.
  apply bind_inv in H as ([] & sa & Ha & H). apply print_inv in Ha.
  apply bind_inv in H as (connection & sb & Hb & H).
  apply invoke_inv in Hb as (wb & _ & Hb).
  apply bind_inv in H as (channel & sc & Hc & H).
  apply invoke_inv in Hc as (wc & _ & Hc).
  apply bind_inv in H as ([] & sd & Hd & H).
  apply invoke_inv in Hd as (wd & _ & Hd).
  apply bind_inv in H as ([] & se & He & H).
  apply invoke_inv in He as (we & _ & He).
  apply bind_inv in H as ([] & sf & Hf & H).
  apply invoke_inv in Hf as (wf & _ & Hf).
  apply bind_inv in H as ([] & sg & Hg & H).
  apply invoke_inv in Hg as (wg & _ & Hg).
  apply bind_inv in H as ([] & sh & Hh & H). apply print_inv in Hh.
  unfold ret in H. injection H as -> -> <-.
  subst. cbn [world trace]. now rewrite <- !app_assoc.
Qed.

Lemma service_bind_declares_topology_witness :
  let s := InMemory.start (InMemory.disk [] false) in
  trace (snd (@service_bind InMemory.platform "pose" (JStr "127.0.0.1") s)) =
    trace s ++
      [ Printed "127.0.0.1";
        Called (BlockingConnection (JStr "127.0.0.1"));
        Called (connection_channel (Connection 0));
        Called (exchange_declare (Channel 0) "snapshot" "direct");
        Called (queue_declare (Channel 0) "pose" true);
        Called (queue_bind (Channel 0) "snapshot" "pose" "snapshot");
        Called (basic_consume (Channel 0) "pose" true);
        Printed (format "{}: Starting to consume" ["pose"]) ].
Proof.
  intros s.
  apply (@service_bind_declares_topology
           InMemory.platform "pose" (JStr "127.0.0.1")
           (Connection 0) (Channel 0) s).
  reflexivity.
Defined.

(* ================================================================== *)
(** ** The entry point on a registered name *)

(** X19.  [run_parser_wrapper] with a registered name and the action
    [once], once logging is set up: if the file named by [data] is read,
    the result is that of the registered transform on the file's
    content; if reading raises any [Exception] (a missing file, or
    [data] left to [None]), the error is logged, the notice is printed
    and the process exits with status 1 without running the transform. *)
Theorem run_once_reads_the_file_or_exits
        (P : Platform) (globals_PARSERS : dict function)
        (parser_name : string) (data mq : json)
        (deliveries : list bytes) (s s1 : State) :
  dict_mem parser_name globals_PARSERS = true ->
  init_logger parser_name s = (Return tt, s1) ->
  (forall content w2,
      perform (open_read data "rb") (world s1) = (Return content, w2) ->
      run_parser_wrapper globals_PARSERS parser_name data mq "once" deliveries s
      = run_parser globals_PARSERS parser_name content
          (mkState w2 (trace s1 ++ [Called (open_read data "rb")])))
  /\
  (forall e w2,
      is_Exception e = true ->
      perform (open_read data "rb") (world s1) = (Raise e, w2) ->
      run_parser_wrapper globals_PARSERS parser_name data mq "once" deliveries s
      = (Raise exit_exn,
         mkState w2
           (trace s1 ++
              [ Called (open_read data "rb");
                Logged "ERROR" (format "Raw data file error: {}" [str_exn e]);
                exit_notice ])))
  /\
  exit_status (@Raise (option bytes) exit_exn) = 1.
Proof.
  intros Hmem Hinit. split; [| split; [| apply exit_status_exit_exn]].
  - intros content w2 Hread. unfold run_parser_wrapper.
    rewrite Hmem. cbn [negb].
    erewrite bind_Return by reflexivity.
    erewrite bind_Return by exact Hinit.
    cbn [String.eqb Ascii.eqb Bool.eqb].
    erewrite bind_Return
      by (apply try_except_Return, invoke_Return; exact Hread).
    reflexivity.
  - intros e w2 He Hread. unfold run_parser_wrapper.
    rewrite Hmem. cbn [negb].
    erewrite bind_Return by reflexivity.
    erewrite bind_Return by exact Hinit.
    cbn [String.eqb Ascii.eqb Bool.eqb].
    apply bind_Raise.
    erewrite try_except_caught;
      [| apply invoke_Raise; exact Hread | rewrite He; reflexivity].
    erewrite bind_Return by reflexivity.
    rewrite exit_run_exits. cbn [world trace].
    now rewrite <- !app_assoc.
Qed.

Lemma run_once_reads_the_file_or_exits_witness :
  let w := InMemory.disk [] false in
  let ready :=
    @mkState InMemory.platform w
      [ Called (now_strftime "%d.%m.%Y-%H:%M:%S");
        Called (os_path_exists "/cortex/parsers/Logs");
        Called (logging_basicConfig
                  "/cortex/parsers/Logs/pose_04.12.2019-10:08:07.log");
        Called pika_setLevel_WARNING ] in
  @run_parser_wrapper InMemory.platform PARSERS "pose"
     (JStr "/raw/snapshot.json") JNull "once" [] (InMemory.start w)
  = (Raise (@exit_exn InMemory.platform),
     @mkState InMemory.platform w
       (trace ready ++
          [ Called (open_read (JStr "/raw/snapshot.json") "rb");
            Logged "ERROR"
              (format "Raw data file error: {}" ["No such file or directory"]);
            @exit_notice ])).
Proof.
  intros w ready.
  destruct (@run_once_reads_the_file_or_exits
              InMemory.platform PARSERS "pose" (JStr "/raw/snapshot.json") JNull
              [] (InMemory.start w) ready eq_refl eq_refl)
    as (_ & Hfail & _).
  exact (Hfail (OSError "No such file or directory") w eq_refl eq_refl).
Defined.

(** X20.  [run_parser_wrapper] with a registered name, once logging is
    set up: with the action [service] it runs the service loop and, if
    the loop returns, returns [None]; with an action that is neither
    [once] nor [service] it does nothing more and returns [None], with
    no error reported. *)
Theorem run_parser_wrapper_other_actions
        (P : Platform) (globals_PARSERS : dict function)
        (parser_name : string) (data mq : json) (action : string)
        (deliveries : list bytes) (s s1 : State) :
  dict_mem parser_name globals_PARSERS = true ->
  init_logger parser_name s = (Return tt, s1) ->
  (action = "service" ->
   run_parser_wrapper globals_PARSERS parser_name data mq action deliveries s
   = bind (run_parser_service globals_PARSERS parser_name mq deliveries)
          (fun _ => ret None) s1)
  /\
  (action <> "once" -> action <> "service" ->
   run_parser_wrapper globals_PARSERS parser_name data mq action deliveries s
   = (Return None, s1)).
Proof.
  intros Hmem Hinit. split.
  - intros ->. unfold run_parser_wrapper.
    rewrite Hmem. cbn [negb].
    erewrite bind_Return by reflexivity.
    erewrite bind_Return by exact Hinit.
    reflexivity.
  - intros Honce Hservice. unfold run_parser_wrapper.
    rewrite Hmem. cbn [negb].
    erewrite bind_Return by reflexivity.
    erewrite bind_Return by exact Hinit.
    destruct (String.eqb_spec action "once"); [contradiction |].
    destruct (String.eqb_spec action "service"); [contradiction |].
    reflexivity.
Qed.

Lemma run_parser_wrapper_other_actions_witness :
  let w := InMemory.disk [] false in
  @run_parser_wrapper InMemory.platform PARSERS "pose"
     (JStr "/raw/snapshot.json") JNull "twice" [] (InMemory.start w)
  = (Return None,
     @mkState InMemory.platform w
       [ Called (now_strftime "%d.%m.%Y-%H:%M:%S");
         Called (os_path_exists "/cortex/parsers/Logs");
         Called (logging_basicConfig
                   "/cortex/parsers/Logs/pose_04.12.2019-10:08:07.log");
         Called pika_setLevel_WARNING ]).
Proof.
  intros w.
  destruct (@run_parser_wrapper_other_actions
              InMemory.platform PARSERS "pose" (JStr "/raw/snapshot.json") JNull
              "twice" [] (InMemory.start w)
              (@mkState InMemory.platform w
                 [ Called (now_strftime "%d.%m.%Y-%H:%M:%S");
                   Called (os_path_exists "/cortex/parsers/Logs");
                   Called (logging_basicConfig
                             "/cortex/parsers/Logs/pose_04.12.2019-10:08:07.log");
                   Called pika_setLevel_WARNING ])
              eq_refl eq_refl)
    as (_ & Hother).
  apply Hother; discriminate.
Defined.

(** X21.  [init_logger] asks for the time and whether the log directory
    exists, creates the directory exactly when the answer is no, then
    configures logging to the file [{directory}/{parser_name}_{time}.log],
    with the time it was given, and lowers pika's logger: when these
    calls go through, they are its events, in this order, and it
    returns. *)
Theorem init_logger_creates_directory_if_absent
        (P : Platform) (parser_name : string) (s : State)
        (time_string : string) (present : bool) (w1 w2 w3 w4 w5 : World) :
  perform (now_strftime "%d.%m.%Y-%H:%M:%S") (world s) = (Return time_string, w1) ->
  perform (os_path_exists LOGS_DIRECTORY) w1 = (Return present, w2) ->
  (if present then w3 = w2
   else perform (os_makedirs LOGS_DIRECTORY) w2 = (Return tt, w3)) ->
  perform (logging_basicConfig
             (format "{}/{}_{}.log" [LOGS_DIRECTORY; parser_name; time_string]))
          w3 = (Return tt, w4) ->
  perform pika_setLevel_WARNING w4 = (Return tt, w5) ->
  init_logger parser_name s =
    (Return tt,
     mkState w5
       (trace s ++
          [ Called (now_strftime "%d.%m.%Y-%H:%M:%S");
            Called (os_path_exists LOGS_DIRECTORY) ] ++
          (if present then [] else [Called (os_makedirs LOGS_DIRECTORY)]) ++
          [ Called (logging_basicConfig
                      (format "{}/{}_{}.log"
                              [LOGS_DIRECTORY; parser_name; time_string]));
            Called pika_setLevel_WARNING ])).
Proof.
  intros Hnow Hexists Hmk Hconfig Hlevel.
  unfold init_logger.
  erewrite bind_Return by (apply invoke_Return; exact Hnow).
  erewrite bind_Return by (apply invoke_Return; exact Hexists).
  destruct present; cbn [negb].
  - subst w3.
    erewrite bind_Return by reflexivity.
    erewrite bind_Return by (apply invoke_Return; exact Hconfig).
    erewrite invoke_Return by exact Hlevel.
    cbn [world trace app]. now rewrite <- !app_assoc.
  - erewrite bind_Return by (apply invoke_Return; exact Hmk).
    erewrite bind_Return by (apply invoke_Return; exact Hconfig).
    erewrite invoke_Return by exact Hlevel.
    cbn [world trace app]. now rewrite <- !app_assoc.
Qed.

Lemma init_logger_creates_directory_if_absent_witness :
  let w := InMemory.disk [] false in
  @init_logger InMemory.platform "pose" (InMemory.start w) =
    (Return tt,
     @mkState InMemory.platform w
       ([] ++
          [ Called (now_strftime "%d.%m.%Y-%H:%M:%S");
            Called (os_path_exists "/cortex/parsers/Logs") ] ++
          [] ++
          [ Called (logging_basicConfig
                      (format "{}/{}_{}.log"
                              ["/cortex/parsers/Logs"; "pose";
                               "04.12.2019-10:08:07"]));
            Called pika_setLevel_WARNING ])).
Proof.
  intros w.
  apply (@init_logger_creates_directory_if_absent
           InMemory.platform "pose" (InMemory.start w)
           "04.12.2019-10:08:07" true w w w w w);
    reflexivity.
Defined.

(** X22.  [run_parser_service] handles broker errors only: an exception
    of any other class, raised while binding or out of the loop (by a
    transform, for instance), leaves [run_parser_service] as it is, in
    the state it was raised in; nothing is logged or printed for it. *)
Theorem other_exceptions_leave_the_service
        (P : Platform) (globals_PARSERS : dict function)
        (parser_name : string) (message_queue : json)
        (deliveries : list bytes) (s : State) (e : exn) :
  (forall msg, e <> AMQPError msg) ->
  (forall s1,
      service_bind parser_name message_queue s = (Raise e, s1) ->
      run_parser_service globals_PARSERS parser_name message_queue deliveries s
      = (Raise e, s1))
  /\
  (forall conn ch s1 s2,
      service_bind parser_name message_queue s = (Return (conn, ch), s1) ->
      start_consuming ch (parser_callback globals_PARSERS parser_name conn)
                      deliveries s1
      = (Raise e, s2) ->
      run_parser_service globals_PARSERS parser_name message_queue deliveries s
      = (Raise e, s2)).
Proof.
  intros Hother.
  assert (Hnone : match e with
                  | AMQPError _ =>
                      Some (bind (logging_error
                                    (format "Error in run_parser_service: {}"
                                            [str_exn e]))
                                 (fun _ => @exit_run P unit))
                  | _ => None
                  end = None).
  { destruct e; try reflexivity. exfalso. eapply Hother. reflexivity. }
  split.
  - intros s1 Hbind. unfold run_parser_service.
    apply try_except_passed; [apply bind_Raise; exact Hbind | exact Hnone].
  - intros conn ch s1 s2 Hbind Hloop. unfold run_parser_service.
    apply try_except_passed; [| exact Hnone].
    erewrite bind_Return by exact Hbind. exact Hloop.
Qed.

Lemma other_exceptions_leave_the_service_witness :
  let s := InMemory.start (InMemory.disk [] false) in
  let body := Json (JObj [("datetime", JStr "2019-12-04_10-08-07")]) in
  exists s2,
    @run_parser_service InMemory.platform PARSERS "pose" (JStr "127.0.0.1")
                        [body] s
    = (Raise (KeyError "user_id"), s2).
Proof.
  intros s body.
  destruct (@other_exceptions_leave_the_service
              InMemory.platform PARSERS "pose" (JStr "127.0.0.1") [body] s
              (KeyError "user_id"))
    as (_ & Hloop).
  - intros msg. discriminate.
  - eexists.
    eapply (Hloop (Connection 0) (Channel 0)); reflexivity.
Defined.

(** X23.  A body that decodes to something other than an object (a
    list, a string, a number, [true], [false], [null]) makes every
    registered transform raise [TypeError] at the debug log line, before
    the [try]: the exception leaves the transform, nothing is logged and
    the state is untouched. *)
Theorem non_object_body_raises_TypeError
        (P : Platform) (name : string) (f : function) (v : json) (s : State) :
  dict_get name PARSERS = Some f ->
  (forall d, v <> JObj d) ->
  exists msg, __call__ f (Json v) s = (Raise (TypeError msg), s).
Proof.
  intros Hf Hv.
  destruct (@registered_prologue P name f Hf) as (rest & ->).
  eexists.
  erewrite bind_Return by reflexivity.
  apply bind_Raise. unfold log_received. apply bind_Raise.
  unfold getitem. destruct v; try reflexivity.
  exfalso. eapply Hv. reflexivity.
Qed.

Lemma non_object_body_raises_TypeError_witness :
  let s := InMemory.start (InMemory.disk [] false) in
  exists msg,
    @feelings InMemory.platform (Json (JArr [JInt 1; JInt 2])) s
    = (Raise (TypeError msg), s).
Proof.
  intros s.
  apply (@non_object_body_raises_TypeError
           InMemory.platform "feelings" (def "feelings" feelings)
           (JArr [JInt 1; JInt 2]) s).
  - reflexivity.
  - intros d. discriminate.
Defined.
